(** * compliance-app: the report generator [scripts/generate-report.js]

    A shallow embedding of the control evaluation engine: the artifact
    reader, the three summarizers, the six control rules, the Markdown
    renderer and [main], followed by the properties of the specification
    that were settled against them.

    Conventions of the embedding.
    - A parsed JSON value is a [json] tree.  Numbers are the integer-valued
      ones ([Z]): the artifacts carry counts, and on those [>] and
      truthiness agree with the engine's.  Printing a number is the exact
      decimal, which is what the engine prints for integers below 2^53;
      a statement that shows a printed number carries that bound.
    - Strings are Rocq strings, read as the ASCII part of JS strings;
      [toUpperCase] is the case mapping of ASCII strings, on which it is
      the engine's.  A statement that names an upper-cased label is about
      ASCII labels ([is_ascii], [spells]).
    - [undefined] is [None] where a property may be absent.
    - A JS exception is the [Throw] branch of [completion].
    - Node's [fs], [path], [process.env], the clock and [JSON.parse] are the
      fields of a [host]. Diagnostics written to stderr are not modelled. *)

From Stdlib Require Import ZArith String Ascii List Bool Lia DecimalString.
Import ListNotations.
Open Scope string_scope.
Open Scope Z_scope.
Set Warnings "-register-all".

(** ** Completions: a value, or a thrown exception *)

Inductive completion (A : Type) : Type :=
| Normal (a : A)
| Throw (message : string).
Arguments Normal {A} a.
Arguments Throw {A} message.

Definition bind {A B : Type} (c : completion A) (k : A -> completion B)
  : completion B :=
  match c with
  | Normal a => k a
  | Throw m => Throw m
  end.

Notation "x <- c ;; k" := (bind c (fun x => k))
  (at level 61, c at next level, right associativity).

(** ** JSON values, as [JSON.parse] returns them *)

Module JS.

(** An object keeps its members in the order of the text; of two members with
    one name [JSON.parse] keeps the later value. *)
Inductive json : Type :=
| JNull
| JBool (b : bool)
| JNum (n : Z)
| JStr (s : string)
| JArr (items : list json)
| JObj (members : list (string * json)).

Fixpoint lookup_last (k : string) (members : list (string * json))
  : option json :=
  match members with
  | [] => None
  | (k', v) :: rest =>
      match lookup_last k rest with
      | Some w => Some w
      | None => if String.eqb k k' then Some v else None
      end
  end.

(** [v.k] for the property names this script reads ([findings], [Leaks],
    [leaks], [results], [total], [Results], [Vulnerabilities], [Severity],
    [level], [details]): none of them is on a prototype, so only an object's
    own member answers; every read in the script is guarded against [null]. *)
Definition get_prop (v : json) (k : string) : option json :=
  match v with
  | JObj members => lookup_last k members
  | _ => None
  end.

(** ToBoolean *)
Definition truthy (v : json) : bool :=
  match v with
  | JNull => false
  | JBool b => b
  | JNum n => negb (n =? 0)
  | JStr s => negb (String.eqb s "")
  | JArr _ => true
  | JObj _ => true
  end.

Definition truthy_opt (o : option json) : bool :=
  match o with
  | Some v => truthy v
  | None => false
  end.

(** [Array.isArray(x)], [x] possibly [undefined] *)
Definition as_array (o : option json) : option (list json) :=
  match o with
  | Some (JArr items) => Some items
  | _ => None
  end.

(** [typeof v === 'number'] *)
Definition as_number (o : option json) : option Z :=
  match o with
  | Some (JNum n) => Some n
  | _ => None
  end.

(** Number to string, as in a template literal or [String(n)]: the decimal
    digits, as the engine prints every integer of magnitude below 2^53. *)
Definition Number_toString (n : Z) : string :=
  NilZero.string_of_int (Z.to_int n).

Definition upper_ascii (c : ascii) : ascii :=
  let n := nat_of_ascii c in
  if (Nat.leb 97 n && Nat.leb n 122)%bool then ascii_of_nat (n - 32) else c.

Fixpoint toUpperCase (s : string) : string :=
  match s with
  | EmptyString => EmptyString
  | String c rest => String (upper_ascii c) (toUpperCase rest)
  end.

Definition has_own (k : string) (members : list (string * json)) : bool :=
  existsb (fun kv => String.eqb k (fst kv)) members.

(** [String(v)].  An array prints its elements joined by commas, [null]
    elements as the empty string.  An object prints as [[object Object]]
    through [Object.prototype.toString]; when it has a member of its own
    named [toString], that value is not callable, neither is what [valueOf]
    gives a primitive, and the conversion throws a TypeError. *)
Fixpoint ToString (v : json) : completion string :=
  match v with
  | JNull => Normal "null"
  | JBool true => Normal "true"
  | JBool false => Normal "false"
  | JNum n => Normal (Number_toString n)
  | JStr s => Normal s
  | JArr items =>
      (fix join (l : list json) : completion string :=
         match l with
         | [] => Normal ""
         | x :: rest =>
             s <- (match x with JNull => Normal "" | _ => ToString x end) ;;
             match rest with
             | [] => Normal s
             | _ => r <- join rest ;; Normal (s ++ "," ++ r)
             end
         end) items
  | JObj members =>
      if has_own "toString" members
      then Throw "TypeError: Cannot convert object to primitive value"
      else Normal "[object Object]"
  end.

End JS.
Import JS.

(** ** Constants of the script *)

Inductive Status : Type := PASS | FAIL.

Definition status_text (s : Status) : string :=
  match s with
  | PASS => "PASS"
  | FAIL => "FAIL"
  end.

Definition status_eqb (a b : Status) : bool :=
  match a, b with
  | PASS, PASS | FAIL, FAIL => true
  | _, _ => false
  end.

(** [CONTROL_IDS] *)
Inductive control_id : Type := SEC01 | SEC02 | SEC03 | SEC04 | SEC05 | SEC06.

Definition id_text (i : control_id) : string :=
  match i with
  | SEC01 => "SEC-01"
  | SEC02 => "SEC-02"
  | SEC03 => "SEC-03"
  | SEC04 => "SEC-04"
  | SEC05 => "SEC-05"
  | SEC06 => "SEC-06"
  end.

Module FILES.
Definition gitleaks := "gitleaks.json".
Definition trivyFs := "trivy-fs.json".
Definition trivyImage := "trivy-image.json".
Definition dockle := "dockle.json".
Definition sbom := "sbom.json".
End FILES.

(** [TRIVY_SEVERITIES] *)
Inductive severity : Type := CRITICAL | HIGH | MEDIUM | LOW | UNKNOWN.

Definition TRIVY_SEVERITIES : list severity :=
  [CRITICAL; HIGH; MEDIUM; LOW; UNKNOWN].

Definition severity_text (s : severity) : string :=
  match s with
  | CRITICAL => "CRITICAL"
  | HIGH => "HIGH"
  | MEDIUM => "MEDIUM"
  | LOW => "LOW"
  | UNKNOWN => "UNKNOWN"
  end.

(** A control verdict *)
Record control : Type := mkControl {
  id : control_id;
  status : Status;
  details : string
}.

(** ** The host: what Node gives the script *)

Inductive read_outcome : Type :=
| ReadOk (content : string)
| ReadRejected (code : option string) (message : string).

Inductive parse_outcome : Type :=
| ParseOk (value : json)
| ParseThrows (message : string).

Inductive write_outcome : Type :=
| WriteOk
| WriteRejected (message : string).

Record host : Type := mkHost {
  env : string -> option string;          (* process.env *)
  default_artifact_dir : string;          (* path.resolve(__dirname, '..', 'artifacts') *)
  path_join : string -> string -> string; (* path.join *)
  readFile : string -> read_outcome;      (* fs.promises.readFile(p, 'utf8') *)
  writeFile : string -> string -> write_outcome;
  JSON_parse : string -> parse_outcome;
  now : string                            (* new Date().toISOString() *)
}.

(** [process.env.K || d] *)
Definition env_or (h : host) (k d : string) : string :=
  match env h k with
  | Some s => if String.eqb s "" then d else s
  | None => d
  end.

Definition ARTIFACT_DIR (h : host) : string :=
  env_or h "ARTIFACT_DIR" (default_artifact_dir h).

(** ** Artifact Store Reader *)

Record artifact : Type := mkArtifact {
  name : string;
  fullPath : string;
  found : bool;
  parsed : bool;
  data : json;
  error : option string
}.

(** [err.code === k] *)
Definition code_is (code : option string) (k : string) : bool :=
  match code with
  | Some c => String.eqb c k
  | None => false
  end.

Definition readJsonArtifact (h : host) (fileName : string) : artifact :=
  let fullPath := path_join h (ARTIFACT_DIR h) fileName in
  match readFile h fullPath with
  | ReadOk content =>
      match JSON_parse h content with
      | ParseOk value => mkArtifact fileName fullPath true true value None
      | ParseThrows m =>
          mkArtifact fileName fullPath true false JNull
                     (Some ("Invalid JSON: " ++ m))
      end
  | ReadRejected code m =>
      if code_is code "ENOENT" then
        mkArtifact fileName fullPath false false JNull (Some "File not found")
      else
        mkArtifact fileName fullPath true false JNull
                   (Some ("Read error: " ++ m))
  end.

(** [`${e}`] for a string or [null] *)
Definition show_error (e : option string) : string :=
  match e with
  | Some m => m
  | None => "null"
  end.

(** ** Secret-finding counter *)

Record finding_count : Type := mkFindingCount {
  count : option Z;
  count_error : option string
}.

Definition counted (n : Z) : finding_count := mkFindingCount (Some n) None.

Definition array_length (items : list json) : Z := Z.of_nat (length items).

Definition inferGitleaksFindingCount (data : json) : finding_count :=
  let unknown :=
    mkFindingCount None
      (Some "Unknown Gitleaks JSON structure (no findings array found)") in
  match data with
  | JArr items => counted (array_length items)
  | JObj _ =>
      match as_array (get_prop data "findings") with
      | Some l => counted (array_length l)
      | None =>
      match as_array (get_prop data "Leaks") with
      | Some l => counted (array_length l)
      | None =>
      match as_array (get_prop data "leaks") with
      | Some l => counted (array_length l)
      | None =>
      match as_array (get_prop data "results") with
      | Some l => counted (array_length l)
      | None =>
      match as_number (get_prop data "total") with
      | Some n => counted n
      | None => unknown
      end end end end end
  | _ => unknown
  end.

(** ** Vulnerability summarizer *)

Module Trivy.

Record counts_t : Type := mkCounts {
  nCRITICAL : Z;
  nHIGH : Z;
  nMEDIUM : Z;
  nLOW : Z;
  nUNKNOWN : Z
}.

(** [counts[sev]] *)
Definition get (c : counts_t) (sev : severity) : Z :=
  match sev with
  | CRITICAL => nCRITICAL c
  | HIGH => nHIGH c
  | MEDIUM => nMEDIUM c
  | LOW => nLOW c
  | UNKNOWN => nUNKNOWN c
  end.

(** [counts[sev] += 1] *)
Definition incr (sev : severity) (c : counts_t) : counts_t :=
  match sev with
  | CRITICAL => mkCounts (nCRITICAL c + 1) (nHIGH c) (nMEDIUM c) (nLOW c) (nUNKNOWN c)
  | HIGH => mkCounts (nCRITICAL c) (nHIGH c + 1) (nMEDIUM c) (nLOW c) (nUNKNOWN c)
  | MEDIUM => mkCounts (nCRITICAL c) (nHIGH c) (nMEDIUM c + 1) (nLOW c) (nUNKNOWN c)
  | LOW => mkCounts (nCRITICAL c) (nHIGH c) (nMEDIUM c) (nLOW c + 1) (nUNKNOWN c)
  | UNKNOWN => mkCounts (nCRITICAL c) (nHIGH c) (nMEDIUM c) (nLOW c) (nUNKNOWN c + 1)
  end.

Definition zero : counts_t := mkCounts 0 0 0 0 0.

Record summary : Type := mkSummary {
  total : Z;
  counts : counts_t
}.

End Trivy.

(** The label of [TRIVY_SEVERITIES] a string is, if any ([includes]). *)
Definition severity_of_string (s : string) : option severity :=
  find (fun sev => String.eqb s (severity_text sev)) TRIVY_SEVERITIES.

(** The severity one entry is counted under: the two statements at the head
    of the inner loop. *)
Definition entrySeverity (vuln : json) : completion severity :=
  sev <- (if truthy vuln && truthy_opt (get_prop vuln "Severity")
          then match get_prop vuln "Severity" with
               | Some v => s <- ToString v ;; Normal (toUpperCase s)
               | None => Normal "UNKNOWN"
               end
          else Normal "UNKNOWN") ;;
  Normal (match severity_of_string sev with
          | Some known => known
          | None => UNKNOWN
          end).

Fixpoint countVulnerabilities (vulns : list json) (c : Trivy.counts_t)
  : completion Trivy.counts_t :=
  match vulns with
  | [] => Normal c
  | vuln :: rest =>
      sev <- entrySeverity vuln ;;
      countVulnerabilities rest (Trivy.incr sev c)
  end.

Fixpoint countResults (results : list json) (c : Trivy.counts_t)
  : completion Trivy.counts_t :=
  match results with
  | [] => Normal c
  | result :: rest =>
      if truthy result then
        match as_array (get_prop result "Vulnerabilities") with
        | Some vulns =>
            c' <- countVulnerabilities vulns c ;;
            countResults rest c'
        | None => countResults rest c
        end
      else countResults rest c
  end.

Definition summarizeTrivyVulns (data : json)
  : completion (option Trivy.summary) :=
  match data with
  | JObj _ =>
      match as_array (get_prop data "Results") with
      | Some results =>
          c <- countResults results Trivy.zero ;;
          let total :=
            fold_left (fun acc sev => acc + Trivy.get c sev) TRIVY_SEVERITIES 0 in
          Normal (Some (Trivy.mkSummary total c))
      | None => Normal None
      end
  | _ => Normal None
  end.

(** [x || 0] for a number or [undefined] *)
Definition or_num (x : option Z) (d : Z) : Z :=
  match x with
  | Some n => if n =? 0 then d else n
  | None => d
  end.

Definition formatTrivySummary (label : string) (s : Trivy.summary) : string :=
  let parts :=
    String.concat ", "
      (map (fun sev =>
              severity_text sev ++ ": "
              ++ Number_toString (or_num (Some (Trivy.get (Trivy.counts s) sev)) 0))
           TRIVY_SEVERITIES) in
  "Trivy " ++ label ++ ": total " ++ Number_toString (Trivy.total s) ++ ", " ++ parts.

(** ** Hardening summarizer *)

Module Dockle.

(** The [counts] object: its string-keyed properties in insertion order. *)
Definition counts_t : Type := list (string * Z).

(** [counts[key]] *)
Fixpoint get (key : string) (c : counts_t) : option Z :=
  match c with
  | [] => None
  | (k, v) :: rest => if String.eqb key k then Some v else get key rest
  end.

(** [counts[key] = v] *)
Fixpoint set (key : string) (v : Z) (c : counts_t) : counts_t :=
  match c with
  | [] => [(key, v)]
  | (k, w) :: rest =>
      if String.eqb key k then (k, v) :: rest else (k, w) :: set key v rest
  end.

(** A key that is an array index (a canonical decimal below 2^32 - 1) *)
Definition array_index (key : string) : option N :=
  match NilZero.uint_of_string key with
  | Some u =>
      let n := N.of_uint u in
      if (String.eqb (NilZero.string_of_uint (N.to_uint n)) key
          && (n <? 4294967295)%N)%bool
      then Some n else None
  | None => None
  end.

Fixpoint insert_index (e : N * (string * Z)) (l : list (N * (string * Z)))
  : list (N * (string * Z)) :=
  match l with
  | [] => [e]
  | e' :: rest =>
      if (fst e <=? fst e')%N then e :: l else e' :: insert_index e rest
  end.

(** [Object.entries(counts)]: array-index keys in ascending order, then the
    other keys in insertion order. *)
Definition entries (c : counts_t) : list (string * Z) :=
  let indexed :=
    fold_right
      (fun kv acc =>
         match array_index (fst kv) with
         | Some n => insert_index (n, kv) acc
         | None => acc
         end) [] c in
  (map snd indexed
   ++ filter (fun kv => match array_index (fst kv) with
                        | Some _ => false
                        | None => true
                        end) c)%list.

Record summary : Type := mkSummary {
  counts : counts_t
}.

End Dockle.

(** [bump(level)] *)
Definition bump (level : json) (c : Dockle.counts_t)
  : completion Dockle.counts_t :=
  if negb (truthy level) then Normal c
  else
    s <- ToString level ;;
    let key := toUpperCase s in
    Normal (Dockle.set key (or_num (Dockle.get key c) 0 + 1) c).

(** [if (x && x.level) bump(x.level)] *)
Definition bumpLevelOf (x : json) (c : Dockle.counts_t)
  : completion Dockle.counts_t :=
  if truthy x then
    match get_prop x "level" with
    | Some level => if truthy level then bump level c else Normal c
    | None => Normal c
    end
  else Normal c.

Fixpoint bumpDetails (ds : list json) (c : Dockle.counts_t)
  : completion Dockle.counts_t :=
  match ds with
  | [] => Normal c
  | d :: rest => c' <- bumpLevelOf d c ;; bumpDetails rest c'
  end.

Fixpoint bumpItems (items : list json) (c : Dockle.counts_t)
  : completion Dockle.counts_t :=
  match items with
  | [] => Normal c
  | item :: rest =>
      c1 <- bumpLevelOf item c ;;
      c2 <- (if truthy item then
               match as_array (get_prop item "details") with
               | Some ds => bumpDetails ds c1
               | None => Normal c1
               end
             else Normal c1) ;;
      bumpItems rest c2
  end.

Definition summarizeDockleFindings (data : json)
  : completion (option Dockle.summary) :=
  let finish (c : Dockle.counts_t) :=
    if (Z.of_nat (length c) =? 0)
    then Normal (Some (Dockle.mkSummary []))
    else Normal (Some (Dockle.mkSummary c)) in
  match data with
  | JArr items => c <- bumpItems items [] ;; finish c
  | JObj _ =>
      c1 <- (match as_array (get_prop data "details") with
             | Some ds => bumpDetails ds []
             | None => Normal []
             end) ;;
      c2 <- (match get_prop data "level" with
             | Some level => if truthy level then bump level c1 else Normal c1
             | None => Normal c1
             end) ;;
      finish c2
  | _ => Normal None
  end.

(** ** Control evaluator *)

(** [if (error)] for a string or [null] *)
Definition truthy_string (e : option string) : bool :=
  match e with
  | Some m => negb (String.eqb m "")
  | None => false
  end.

(** [count > 0] for a number or [null] *)
Definition positive_count (n : option Z) : bool :=
  match n with
  | Some k => k >? 0
  | None => false
  end.

(** [`${count}`] for a number or [null] *)
Definition show_count (n : option Z) : string :=
  match n with
  | Some k => Number_toString k
  | None => "null"
  end.

Definition evaluateSec01 (gitleaksArtifact : artifact) : control :=
  if negb (found gitleaksArtifact) then
    mkControl SEC01 FAIL (FILES.gitleaks ++ " not found")
  else if negb (parsed gitleaksArtifact) then
    mkControl SEC01 FAIL
      (FILES.gitleaks ++ " is not valid JSON ("
       ++ show_error (error gitleaksArtifact) ++ ")")
  else
    let r := inferGitleaksFindingCount (data gitleaksArtifact) in
    if truthy_string (count_error r) then
      mkControl SEC01 FAIL
        ("Unable to determine findings in " ++ FILES.gitleaks ++ ": "
         ++ show_error (count_error r))
    else if positive_count (count r) then
      mkControl SEC01 FAIL
        ("Gitleaks detected " ++ show_count (count r) ++ " potential secret(s)")
    else
      mkControl SEC01 PASS "No secrets detected by Gitleaks (0 findings)".

(** The issue one vulnerability artifact adds in [evaluateSec02], if any. *)
Definition coverageIssue (fileName : string) (a : artifact) : list string :=
  if negb (found a) then [fileName ++ " not found"]
  else if negb (parsed a) then
    [fileName ++ " is not valid JSON (" ++ show_error (error a) ++ ")"]
  else [].

Definition evaluateSec02 (trivyFsArtifact trivyImageArtifact : artifact)
    (fsSummary imageSummary : option Trivy.summary) : control :=
  let issues :=
    (coverageIssue FILES.trivyFs trivyFsArtifact
     ++ coverageIssue FILES.trivyImage trivyImageArtifact)%list in
  if Z.of_nat (length issues) >? 0 then
    mkControl SEC02 FAIL (String.concat "; " issues)
  else
    let fsSummaryText :=
      match fsSummary with
      | Some s => formatTrivySummary "FS" s
      | None => "Trivy FS: summary unavailable (unexpected JSON structure)"
      end in
    let imageSummaryText :=
      match imageSummary with
      | Some s => formatTrivySummary "Image" s
      | None => "Trivy image: summary unavailable (unexpected JSON structure)"
      end in
    mkControl SEC02 PASS
      (FILES.trivyFs ++ " and " ++ FILES.trivyImage ++ " present and valid. "
       ++ fsSummaryText ++ "; " ++ imageSummaryText).

Definition evaluateSec03 (dockleArtifact : artifact)
    (dockleSummary : option Dockle.summary) : control :=
  if negb (found dockleArtifact) then
    mkControl SEC03 FAIL (FILES.dockle ++ " not found")
  else if negb (parsed dockleArtifact) then
    mkControl SEC03 FAIL
      (FILES.dockle ++ " is not valid JSON ("
       ++ show_error (error dockleArtifact) ++ ")")
  else
    match dockleSummary with
    | None =>
        mkControl SEC03 PASS
          (FILES.dockle ++ " present and valid (unable to infer finding levels; treating as informational)")
    | Some s =>
        let counts := Dockle.counts s in
        let fatal :=
          or_num (Dockle.get "FATAL" counts) (or_num (Dockle.get "FATL" counts) 0) in
        let error := or_num (Dockle.get "ERROR" counts) 0 in
        let warn := or_num (Dockle.get "WARN" counts) 0 in
        let parts :=
          String.concat ", "
            (map (fun kv => fst kv ++ ": " ++ Number_toString (snd kv))
                 (filter (fun kv => snd kv >? 0) (Dockle.entries counts))) in
        let summaryText :=
          if String.eqb parts "" then "no findings" else parts in
        if ((fatal >? 0) || (error >? 0) || (warn >? 0))%bool then
          mkControl SEC03 FAIL
            ("Dockle reported hardening issues (" ++ summaryText ++ ")")
        else
          mkControl SEC03 PASS ("Dockle scan clean (" ++ summaryText ++ ")")
    end.

Definition evaluateSec04 (trivyFsArtifact trivyImageArtifact : artifact)
    (fsSummary imageSummary : option Trivy.summary) : control :=
  let problems :=
    ((if (negb (found trivyFsArtifact) || negb (parsed trivyFsArtifact))%bool
      then ["Trivy FS scan missing or invalid"] else [])
     ++ (if (negb (found trivyImageArtifact)
             || negb (parsed trivyImageArtifact))%bool
         then ["Trivy image scan missing or invalid"] else []))%list in
  if Z.of_nat (length problems) >? 0 then
    mkControl SEC04 FAIL (String.concat "; " problems)
  else
    match fsSummary, imageSummary with
    | Some fs, Some img =>
        let fsCrit := or_num (Some (Trivy.get (Trivy.counts fs) CRITICAL)) 0 in
        let imgCrit := or_num (Some (Trivy.get (Trivy.counts img) CRITICAL)) 0 in
        let totalCrit := fsCrit + imgCrit in
        let fsText := formatTrivySummary "FS" fs in
        let imgText := formatTrivySummary "Image" img in
        if totalCrit >? 0 then
          mkControl SEC04 FAIL
            ("CRITICAL vulnerabilities detected. " ++ fsText ++ "; " ++ imgText)
        else
          mkControl SEC04 PASS
            ("No CRITICAL vulnerabilities in Trivy scans. "
             ++ fsText ++ "; " ++ imgText)
    | _, _ =>
        mkControl SEC04 FAIL
          "Unable to interpret Trivy JSON structure to count vulnerabilities"
    end.

Definition evaluateSec05 (sbomArtifact : artifact) : control :=
  if negb (found sbomArtifact) then
    mkControl SEC05 FAIL (FILES.sbom ++ " not found")
  else if negb (parsed sbomArtifact) then
    mkControl SEC05 FAIL
      (FILES.sbom ++ " is not valid JSON ("
       ++ show_error (error sbomArtifact) ++ ")")
  else
    mkControl SEC05 PASS (FILES.sbom ++ " present and valid (SBOM generated)").

Definition computeOverallStatus (controls : list control) : Status :=
  if forallb (fun c => status_eqb (status c) PASS) controls then PASS else FAIL.

(** ** Report renderer *)

Definition LF : string := String "010"%char "".

(** [String(text).replace(/\|/g, '\\|')] *)
Fixpoint escapeMarkdown (text : string) : string :=
  match text with
  | EmptyString => EmptyString
  | String c rest =>
      if Ascii.eqb c "|"%char
      then String "\"%char (String "|"%char (escapeMarkdown rest))
      else String c (escapeMarkdown rest)
  end.

(** The table line pushed for one control. *)
Definition tableRow (c : control) : string :=
  "| " ++ id_text (id c) ++ " | " ++ status_text (status c) ++ " | "
  ++ escapeMarkdown (details c) ++ " |".

Definition renderLines (h : host) (controls : list control)
    (overallStatus : Status) (timestamp : string) : list string :=
  let gitSha := env_or h "GITHUB_SHA" "n/a" in
  let gitRef := env_or h "GITHUB_REF" "n/a" in
  let repo := env_or h "GITHUB_REPOSITORY" "n/a" in
  let serverUrl := env_or h "GITHUB_SERVER_URL" "https://github.com" in
  let runUrl :=
    match env h "GITHUB_RUN_ID" with
    | Some runId =>
        if (negb (String.eqb runId "") && negb (String.eqb repo ""))%bool
        then serverUrl ++ "/" ++ repo ++ "/actions/runs/" ++ runId
        else "n/a"
    | None => "n/a"
    end in
  let failingControls :=
    filter (fun c => status_eqb (status c) FAIL) controls in
  let head :=
    [ "# Compliance Report"; "";
      "Generated at: `" ++ timestamp ++ "`"; "";
      "## Pipeline Context"; "";
      "- Commit: `" ++ gitSha ++ "`";
      "- Ref: `" ++ gitRef ++ "`";
      "- Repository: `" ++ repo ++ "`";
      "- Run URL: " ++ runUrl; "";
      "## Control Summary"; "";
      "| Control | Status | Details |";
      "|---------|--------|---------|" ] in
  let overall :=
    [ ""; "## Overall Status"; "";
      "**" ++ status_text overallStatus ++ "**"; "" ] in
  let failing :=
    if Z.of_nat (length failingControls) >? 0 then
      app [ "### Failing Controls"; "" ]
          (app (map (fun c => "- " ++ id_text (id c) ++ ": " ++ details c)
                    failingControls)
               [ "" ])
    else [] in
  app head (app (map tableRow controls) (app overall failing)).

Definition renderMarkdown (h : host) (controls : list control)
    (overallStatus : Status) (timestamp : string) : string :=
  String.concat LF (renderLines h controls overallStatus timestamp).

(** ** Run orchestrator *)

(** The first part of [main]: read the five artifacts, derive the summaries,
    evaluate SEC-01 to SEC-05 in order. *)
Definition evaluateArtifacts (h : host) : completion (list control) :=
  let gitleaks := readJsonArtifact h FILES.gitleaks in
  let trivyFs := readJsonArtifact h FILES.trivyFs in
  let trivyImage := readJsonArtifact h FILES.trivyImage in
  let dockle := readJsonArtifact h FILES.dockle in
  let sbom := readJsonArtifact h FILES.sbom in
  trivyFsSummary <-
    (if parsed trivyFs then summarizeTrivyVulns (data trivyFs)
     else Normal None) ;;
  trivyImageSummary <-
    (if parsed trivyImage then summarizeTrivyVulns (data trivyImage)
     else Normal None) ;;
  dockleSummary <-
    (if parsed dockle then summarizeDockleFindings (data dockle)
     else Normal None) ;;
  Normal [ evaluateSec01 gitleaks;
           evaluateSec02 trivyFs trivyImage trivyFsSummary trivyImageSummary;
           evaluateSec03 dockle dockleSummary;
           evaluateSec04 trivyFs trivyImage trivyFsSummary trivyImageSummary;
           evaluateSec05 sbom ].

Definition sec06Tentative : control :=
  mkControl SEC06 PASS "Compliance report generated".

(** [sec06] after the write attempt *)
Definition sec06Final (writeSucceeded : bool) (reportPath : string) : control :=
  if writeSucceeded
  then mkControl SEC06 PASS ("Report generated at " ++ reportPath)
  else mkControl SEC06 FAIL ("Failed to generate report at " ++ reportPath).

(** What a completed [main] leaves behind. *)
Record run : Type := mkRun {
  reportPath : string;
  allControlsForFile : list control;
  markdownContent : string;
  writeSucceeded : bool;
  allControlsForConsole : list control;
  finalOverallStatus : Status;
  consoleMarkdown : string;
  stdout : list string;
  exitCode : Z
}.

(** [ensureDir] catches its own failure and only logs it, so it leaves no
    trace in the result. *)
Definition main (h : host) : completion run :=
  let timestamp := now h in
  controls <- evaluateArtifacts h ;;
  let reportPath := path_join h (ARTIFACT_DIR h) "compliance-report.md" in
  let allControlsForFile := (controls ++ [sec06Tentative])%list in
  let overallStatusForFile := computeOverallStatus allControlsForFile in
  let markdownContent :=
    renderMarkdown h allControlsForFile overallStatusForFile timestamp in
  let writeSucceeded :=
    match writeFile h reportPath markdownContent with
    | WriteOk => true
    | WriteRejected _ => false
    end in
  let sec06 := sec06Final writeSucceeded reportPath in
  let allControlsForConsole := (controls ++ [sec06])%list in
  let finalOverallStatus := computeOverallStatus allControlsForConsole in
  let consoleMarkdown :=
    renderMarkdown h allControlsForConsole finalOverallStatus timestamp in
  let stdout :=
    [ LF ++ "=== Compliance Report ===" ++ LF;
      consoleMarkdown;
      LF ++ "=== End of Compliance Report ===" ++ LF ] in
  let exitCode :=
    if (negb writeSucceeded || status_eqb finalOverallStatus FAIL)%bool
    then 1 else 0 in
  Normal (mkRun reportPath allControlsForFile markdownContent writeSucceeded
                allControlsForConsole finalOverallStatus consoleMarkdown
                stdout exitCode).

(** What the surrounding pipeline observes of one invocation. *)
Record outcome : Type := mkOutcome {
  exit_status : Z;
  printed : list string;
  persisted : option string
}.

(** [main().catch(...)]: a rejected [main] sets the exit code to 1. *)
Definition script (h : host) : outcome :=
  match main h with
  | Normal r =>
      mkOutcome (exitCode r) (stdout r)
                (if writeSucceeded r then Some (markdownContent r) else None)
  | Throw _ => mkOutcome 1 [] None
  end.

(** ** Sample hosts

    A directory is a table from artifact names to read outcomes; the text of
    a file is a label, and [JSON.parse] is a table from labels to values. *)

Module Examples.

Definition sample_host (files : list (string * read_outcome))
    (documents : list (string * json)) (write : write_outcome) : host :=
  mkHost
    (fun _ => None)
    "/app/artifacts"
    (fun dir file => dir ++ "/" ++ file)
    (fun p =>
       match find (fun e => String.eqb p ("/app/artifacts/" ++ fst e)) files with
       | Some e => snd e
       | None => ReadRejected (Some "ENOENT") "ENOENT: no such file or directory"
       end)
    (fun _ _ => write)
    (fun text =>
       match find (fun e => String.eqb text (fst e)) documents with
       | Some e => ParseOk (snd e)
       | None => ParseThrows "Unexpected token"
       end)
    "2024-01-01T00:00:00.000Z".

Definition documents : list (string * json) :=
  [ ("empty array", JArr []);
    ("empty object", JObj []);
    ("no vulnerabilities", JObj [("Results", JArr [])]);
    ("one lowercase critical",
     JObj [("Results",
            JArr [JObj [("Target", JStr "app");
                        ("Vulnerabilities",
                         JArr [JObj [("VulnerabilityID", JStr "CVE-0000-0001");
                                     ("Severity", JStr "critical")]])]])]);
    ("empty details", JObj [("details", JArr [])]);
    ("a number", JNum 5);
    ("unknown structure", JObj [("version", JStr "8.24.3")]);
    ("a severity that is an object with its own toString",
     JObj [("Results",
            JArr [JObj [("Vulnerabilities",
                         JArr [JObj [("Severity",
                                      JObj [("toString", JNum 1)])]])]])]);
    ("a level over two lines",
     JArr [JObj [("code", JStr "CIS-DI-0001");
                 ("level", JStr ("note|see" ++ LF ++ "below"))]]);
    ("negative total", JObj [("total", JNum (-3))]) ].

(** A vulnerability report with a skipped result and three entries. *)
Definition mixed_trivy : json :=
  JObj [("Results",
         JArr [JNull;
               JObj [("Vulnerabilities",
                      JArr [JObj [("Severity", JStr "HIGH")];
                            JObj [("Severity", JStr "negligible")];
                            JNum 4])]])].

(** Scenario 2 of the specification: every artifact present and clean. *)
Definition clean_files : list (string * read_outcome) :=
  [ (FILES.gitleaks, ReadOk "empty array");
    (FILES.trivyFs, ReadOk "no vulnerabilities");
    (FILES.trivyImage, ReadOk "no vulnerabilities");
    (FILES.dockle, ReadOk "empty details");
    (FILES.sbom, ReadOk "empty object") ].

Definition clean_host : host := sample_host clean_files documents WriteOk.

(** The same artifacts in a directory that cannot be written. *)
Definition readonly_host : host :=
  sample_host clean_files documents
    (WriteRejected "EACCES: permission denied").

(** No artifact at all (scenario 1). *)
Definition empty_host : host := sample_host [] documents WriteOk.

(** The secret artifact exists and cannot be read. *)
Definition unreadable_host : host :=
  sample_host
    [ (FILES.gitleaks,
       ReadRejected (Some "EACCES") "EACCES: permission denied") ]
    documents WriteOk.

End Examples.

(** ** Vocabulary of the statements *)

(** *** Vulnerability summaries *)

Definition sum_of_counts (c : Trivy.counts_t) : Z :=
  Trivy.nCRITICAL c + Trivy.nHIGH c + Trivy.nMEDIUM c + Trivy.nLOW c
  + Trivy.nUNKNOWN c.

(** The number of entries the two loops visit. *)
Fixpoint entriesVisited (results : list json) : Z :=
  match results with
  | [] => 0
  | result :: rest =>
      (if truthy result then
         match as_array (get_prop result "Vulnerabilities") with
         | Some vulns => array_length vulns
         | None => 0
         end
       else 0) + entriesVisited rest
  end.

(** The shape the summarizer recognizes: an object whose [Results] is an
    array. *)
Definition trivy_shape (data : json) : Prop :=
  exists results, get_prop data "Results" = Some (JArr results).

(** [data] lists, in some result, an entry whose [Severity] is the string
    [label]. *)
Definition has_entry_with_severity (data : json) (label : string) : Prop :=
  exists results result vulns vuln,
    get_prop data "Results" = Some (JArr results)
    /\ In result results
    /\ get_prop result "Vulnerabilities" = Some (JArr vulns)
    /\ In vuln vulns
    /\ get_prop vuln "Severity" = Some (JStr label).

(** *** Hardening summaries *)

(** A positive count is recorded under [key]. *)
Definition positive_at (key : string) (c : Dockle.counts_t) : Prop :=
  exists n, Dockle.get key c = Some n /\ 0 < n.

Definition absent_or_zero (key : string) (c : Dockle.counts_t) : Prop :=
  Dockle.get key c = None \/ Dockle.get key c = Some 0.

(** The shapes the specification lists for the hardening artifact: a
    top-level array; an object with a [details] array; an object with a
    scalar [level]. *)
Definition scalar (v : json) : Prop :=
  match v with
  | JArr _ | JObj _ => False
  | _ => True
  end.

Definition dockle_shape (data : json) : Prop :=
  (exists items, data = JArr items)
  \/ (exists ds, get_prop data "details" = Some (JArr ds))
  \/ (exists level, get_prop data "level" = Some level /\ scalar level).

(** [null], a boolean, a number or a string *)
Definition primitive (v : json) : bool :=
  match v with
  | JArr _ | JObj _ => false
  | _ => true
  end.

(** *** Markdown tables *)

(** The pipes of a line that delimit cells: those not right after a
    backslash. *)
Fixpoint count_delimiters (after_backslash : bool) (s : string) : nat :=
  match s with
  | EmptyString => 0
  | String c rest =>
      ((if (Ascii.eqb c "|"%char && negb after_backslash)%bool then 1 else 0)
       + count_delimiters (Ascii.eqb c "\"%char) rest)%nat
  end.

Definition delimiters (line : string) : nat := count_delimiters false line.

(** Reading an escaped cell back: [\|] stands for [|]. *)
Fixpoint unescapeMarkdown (s : string) : string :=
  match s with
  | EmptyString => EmptyString
  | String c rest =>
      match rest with
      | String c' rest' =>
          if (Ascii.eqb c "\"%char && Ascii.eqb c' "|"%char)%bool
          then String "|"%char (unescapeMarkdown rest')
          else String c (unescapeMarkdown rest)
      | EmptyString => String c EmptyString
      end
  end.

Fixpoint has_pipe (s : string) : bool :=
  match s with
  | EmptyString => false
  | String c rest => (Ascii.eqb c "|"%char || has_pipe rest)%bool
  end.

(** No line feed and no carriage return *)
Fixpoint single_line (s : string) : bool :=
  match s with
  | EmptyString => true
  | String c rest =>
      (negb (Ascii.eqb c "010"%char) && negb (Ascii.eqb c "013"%char)
       && single_line rest)%bool
  end.

(** The lines of a document *)
Fixpoint split_lines (s : string) : list string :=
  match s with
  | EmptyString => [EmptyString]
  | String c rest =>
      if Ascii.eqb c "010"%char then EmptyString :: split_lines rest
      else match split_lines rest with
           | l :: ls => String c l :: ls
           | [] => [String c EmptyString]
           end
  end.

Fixpoint after_separator (lines : list string) : list string :=
  match lines with
  | [] => []
  | l :: rest =>
      if String.eqb l "|---------|--------|---------|" then rest
      else after_separator rest
  end.

Fixpoint until_blank (lines : list string) : list string :=
  match lines with
  | [] => []
  | l :: rest => if String.eqb l "" then [] else l :: until_blank rest
  end.

(** The body of the control table of a rendered report: the lines between
    the separator line and the next empty line. *)
Definition table_lines (document : string) : list string :=
  until_blank (after_separator (split_lines document)).

(** The pipeline metadata of the host holds no line break. *)
Definition single_line_host (h : host) : Prop :=
  forall k v, env h k = Some v -> single_line v = true.

(** *** Counting, entry by entry *)

(** Whether the inner loop counts [vuln] under [sev]. *)
Definition classified (sev : severity) (vuln : json) : bool :=
  match entrySeverity vuln with
  | Normal s => String.eqb (severity_text s) (severity_text sev)
  | Throw _ => false
  end.

Fixpoint tallyVulnerabilities (sev : severity) (vulns : list json) : Z :=
  match vulns with
  | [] => 0
  | vuln :: rest =>
      (if classified sev vuln then 1 else 0) + tallyVulnerabilities sev rest
  end.

(** The number of visited entries that are counted under [sev]. *)
Fixpoint tally (sev : severity) (results : list json) : Z :=
  match results with
  | [] => 0
  | result :: rest =>
      (if truthy result then
         match as_array (get_prop result "Vulnerabilities") with
         | Some vulns => tallyVulnerabilities sev vulns
         | None => 0
         end
       else 0) + tally sev rest
  end.

(** Every [Severity] the loops convert is [null], a boolean, a number or a
    string. *)
Definition scalar_severities (results : list json) : Prop :=
  forall result vulns vuln v,
    In result results ->
    get_prop result "Vulnerabilities" = Some (JArr vulns) ->
    In vuln vulns ->
    get_prop vuln "Severity" = Some v ->
    scalar v.

(** [x] has a truthy [level]: one call of [bump] that counts. *)
Definition levelCounted (x : json) : Z :=
  if (truthy x && truthy_opt (get_prop x "level"))%bool then 1 else 0.

Fixpoint detailsLevels (ds : list json) : Z :=
  match ds with
  | [] => 0
  | d :: rest => levelCounted d + detailsLevels rest
  end.

Fixpoint itemsLevels (items : list json) : Z :=
  match items with
  | [] => 0
  | item :: rest =>
      levelCounted item
      + (if truthy item then
           match as_array (get_prop item "details") with
           | Some ds => detailsLevels ds
           | None => 0
           end
         else 0)
      + itemsLevels rest
  end.

(** The number of truthy levels the hardening summarizer visits. *)
Definition levelsVisited (data : json) : Z :=
  match data with
  | JArr items => itemsLevels items
  | JObj _ =>
      match as_array (get_prop data "details") with
      | Some ds => detailsLevels ds
      | None => 0
      end + levelCounted data
  | _ => 0
  end.

Definition sum_of_levels (c : Dockle.counts_t) : Z :=
  fold_right (fun kv acc => snd kv + acc) 0 c.

(** What every counts object built by [bump] satisfies: one entry per key,
    keys in upper case, counts at least 1. *)
Definition bumped_counts (c : Dockle.counts_t) : Prop :=
  NoDup (map fst c)
  /\ Forall (fun kv => toUpperCase (fst kv) = fst kv /\ 1 <= snd kv) c.

Definition scalar_level (x : json) : Prop :=
  forall v, get_prop x "level" = Some v -> scalar v.

(** Every [level] the hardening summarizer converts is a scalar. *)
Definition scalar_levels (data : json) : Prop :=
  match data with
  | JArr items =>
      Forall (fun item =>
                scalar_level item
                /\ forall ds, get_prop item "details" = Some (JArr ds) ->
                              Forall scalar_level ds) items
  | JObj _ =>
      scalar_level data
      /\ forall ds, get_prop data "details" = Some (JArr ds) ->
                    Forall scalar_level ds
  | _ => True
  end.

(** The number of pipes of a string. *)
Fixpoint pipes (s : string) : nat :=
  match s with
  | EmptyString => 0
  | String c rest => ((if Ascii.eqb c "|"%char then 1 else 0) + pipes rest)%nat
  end.

(** The five artifact names *)
Definition artifact_names : list string :=
  [FILES.gitleaks; FILES.trivyFs; FILES.trivyImage; FILES.dockle; FILES.sbom].

(** *** Labels and letter case *)

(** Every character is a 7-bit one: on such strings [toUpperCase] is the
    engine's case mapping. *)
Fixpoint is_ascii (s : string) : bool :=
  match s with
  | EmptyString => true
  | String c rest => (Nat.ltb (nat_of_ascii c) 128 && is_ascii rest)%bool
  end.

Definition lower_ascii (c : ascii) : ascii :=
  let n := nat_of_ascii c in
  if (Nat.leb 65 n && Nat.leb n 90)%bool then ascii_of_nat (n + 32) else c.

(** The same ASCII text up to the case of its letters. *)
Fixpoint same_ignoring_case (a b : string) : bool :=
  match a, b with
  | EmptyString, EmptyString => true
  | String x a', String y b' =>
      (Ascii.eqb (lower_ascii x) (lower_ascii y)
       && same_ignoring_case a' b')%bool
  | _, _ => false
  end.

(** [label] is a spelling of the severity label [sev] in some letter case:
    ["critical"], ["Critical"] and ["CRITICAL"] spell CRITICAL. *)
Definition spells (label : string) (sev : severity) : Prop :=
  same_ignoring_case label (severity_text sev) = true.

(** What a label converts to is an ASCII string. *)
Definition ascii_label (v : json) : bool :=
  match ToString v with
  | Normal s => is_ascii s
  | Throw _ => true
  end.

Definition ascii_entry (vuln : json) : bool :=
  match get_prop vuln "Severity" with
  | Some v => ascii_label v
  | None => true
  end.

(** Every [Severity] under [results] converts to an ASCII string. *)
Definition ascii_severities (results : list json) : bool :=
  forallb (fun result =>
             match as_array (get_prop result "Vulnerabilities") with
             | Some vulns => forallb ascii_entry vulns
             | None => true
             end) results.

(** *** The shapes of the secret artifact *)

(** The shapes the counter recognizes: a bare array; an object with an array
    under [findings], [Leaks], [leaks] or [results]; an object with a
    numeric [total]. *)
Definition gitleaks_shape (data : json) : Prop :=
  (exists items, data = JArr items)
  \/ (exists key items,
        In key ["findings"; "Leaks"; "leaks"; "results"]
        /\ get_prop data key = Some (JArr items))
  \/ (exists n, get_prop data "total" = Some (JNum n)).

(** The largest magnitude below which every integer is printed digit by
    digit: 2^53. *)
Definition MAX_EXACT : Z := 9007199254740992.


(** * Properties *)

(** ** Shared facts *)

Lemma status_eqb_eq (a b : Status) : status_eqb a b = true <-> a = b.
Proof. destruct a, b; simpl; split; congruence. Qed.

Lemma status_PASS_or_FAIL (s : Status) : s <> PASS <-> s = FAIL.
Proof. destruct s; split; congruence. Qed.

Lemma computeOverallStatus_PASS (controls : list control) :
  computeOverallStatus controls = PASS
  <-> Forall (fun c => status c = PASS) controls.
Proof.
  unfold computeOverallStatus.
  destruct (forallb _ controls) eqn:E.
  - split; [intros _ | reflexivity].
    rewrite forallb_forall in E. apply Forall_forall.
    intros c Hc. apply status_eqb_eq, E, Hc.
  - split; [discriminate | intros H].
    rewrite Forall_forall in H.
    assert (forallb (fun c => status_eqb (status c) PASS) controls = true).
    { apply forallb_forall. intros c Hc. apply status_eqb_eq, H, Hc. }
    congruence.
Qed.

Lemma bind_Normal {A B : Type} (c : completion A) (k : A -> completion B)
    (b : B) :
  bind c k = Normal b -> exists a, c = Normal a /\ k a = Normal b.
Proof. destruct c; simpl; [eauto | discriminate]. Qed.

Ltac bind_inv H :=
  let a := fresh "x" in
  let Ha := fresh "Hx" in
  apply bind_Normal in H; destruct H as (a & Ha & H).

Ltac case_branches :=
  repeat match goal with
         | |- context [if ?b then _ else _] => destruct b
         | |- context [match ?o with Some _ => _ | None => _ end] => destruct o
         end.

Lemma evaluateSec01_id (a : artifact) : id (evaluateSec01 a) = SEC01.
Proof. unfold evaluateSec01. case_branches; reflexivity. Qed.

Lemma evaluateSec02_id (a b : artifact) (s1 s2 : option Trivy.summary) :
  id (evaluateSec02 a b s1 s2) = SEC02.
Proof. unfold evaluateSec02. case_branches; reflexivity. Qed.

Lemma evaluateSec03_id (a : artifact) (d : option Dockle.summary) :
  id (evaluateSec03 a d) = SEC03.
Proof. unfold evaluateSec03. case_branches; reflexivity. Qed.

Lemma evaluateSec04_id (a b : artifact) (s1 s2 : option Trivy.summary) :
  id (evaluateSec04 a b s1 s2) = SEC04.
Proof. unfold evaluateSec04. case_branches; reflexivity. Qed.

Lemma evaluateSec05_id (a : artifact) : id (evaluateSec05 a) = SEC05.
Proof. unfold evaluateSec05. case_branches; reflexivity. Qed.

Lemma evaluateArtifacts_five (h : host) (controls : list control) :
  evaluateArtifacts h = Normal controls ->
  map id controls = [SEC01; SEC02; SEC03; SEC04; SEC05].
Proof.
  unfold evaluateArtifacts. intros H.
  bind_inv H. bind_inv H. bind_inv H.
  injection H as <-. cbn [map].
  rewrite evaluateSec01_id, evaluateSec02_id, evaluateSec03_id,
    evaluateSec04_id, evaluateSec05_id.
  reflexivity.
Qed.

(** What a completed [main] computed, field by field. *)
Lemma main_Normal (h : host) (r : run) :
  main h = Normal r ->
  exists controls,
    evaluateArtifacts h = Normal controls
    /\ reportPath r = path_join h (ARTIFACT_DIR h) "compliance-report.md"
    /\ allControlsForFile r = (controls ++ [sec06Tentative])%list
    /\ markdownContent r =
         renderMarkdown h (allControlsForFile r)
           (computeOverallStatus (allControlsForFile r)) (now h)
    /\ (writeSucceeded r = true
        <-> writeFile h (reportPath r) (markdownContent r) = WriteOk)
    /\ allControlsForConsole r =
         (controls ++ [sec06Final (writeSucceeded r) (reportPath r)])%list
    /\ finalOverallStatus r = computeOverallStatus (allControlsForConsole r)
    /\ consoleMarkdown r =
         renderMarkdown h (allControlsForConsole r) (finalOverallStatus r)
           (now h)
    /\ stdout r = [ LF ++ "=== Compliance Report ===" ++ LF;
                    consoleMarkdown r;
                    LF ++ "=== End of Compliance Report ===" ++ LF ]
    /\ exitCode r =
         if (negb (writeSucceeded r)
             || status_eqb (finalOverallStatus r) FAIL)%bool
         then 1 else 0.
Proof.
  unfold main. intros H. bind_inv H. injection H as <-.
  exists x. cbn [reportPath allControlsForFile markdownContent writeSucceeded
                 allControlsForConsole finalOverallStatus consoleMarkdown
                 stdout exitCode].
  repeat split; try reflexivity; try assumption.
  all: match goal with
       | |- context [writeFile ?a ?p ?c] =>
           destruct (writeFile a p c); [reflexivity | discriminate]
       end.
Qed.

Lemma sec06Final_status (ok : bool) (p : string) :
  status (sec06Final ok p) = PASS <-> ok = true.
Proof. destruct ok; simpl; split; congruence. Qed.

(** ** The scenarios of the specification *)

(** Scenario 1: no artifact at all. *)
Example scenario_all_missing :
  option_map (map status) (match evaluateArtifacts Examples.empty_host with
                           | Normal cs => Some cs
                           | Throw _ => None
                           end)
  = Some [FAIL; FAIL; FAIL; FAIL; FAIL]
  /\ exit_status (script Examples.empty_host) = 1.
Proof. split; vm_compute; reflexivity. Qed.

(** Scenario 2: every artifact present and clean. *)
Example scenario_all_clean :
  option_map (map status) (match main Examples.clean_host with
                           | Normal r => Some (allControlsForConsole r)
                           | Throw _ => None
                           end)
  = Some [PASS; PASS; PASS; PASS; PASS; PASS]
  /\ exit_status (script Examples.clean_host) = 0.
Proof. split; vm_compute; reflexivity. Qed.

(** Scenario 4: a secret artifact of unknown structure. *)
Example scenario_unknown_secret_structure :
  evaluateSec01
    (readJsonArtifact
       (Examples.sample_host [(FILES.gitleaks, ReadOk "unknown structure")]
          Examples.documents WriteOk)
       FILES.gitleaks)
  = mkControl SEC01 FAIL
      "Unable to determine findings in gitleaks.json: Unknown Gitleaks JSON structure (no findings array found)".
Proof. vm_compute. reflexivity. Qed.

(** A severity that is an object with a member named [toString] makes
    [String(...)] throw inside the summarizer: [main] is rejected, nothing
    is written or printed, and the exit status is 1. *)
Example summarizer_throw_rejects_main :
  script (Examples.sample_host
            [(FILES.trivyFs,
              ReadOk "a severity that is an object with its own toString")]
            Examples.documents WriteOk)
  = mkOutcome 1 [] None.
Proof. vm_compute. reflexivity. Qed.

(** ** C1: the exit status *)

(** C1. The exit status of a run is zero exactly when [main] completed, the
    report write succeeded and each of the six final verdicts (SEC-01 to
    SEC-05 and SEC-06 with its actual outcome) is PASS; every other run
    exits with 1. *)
Theorem exit_status_zero_iff_written_and_all_pass (h : host) :
  (exit_status (script h) = 0
   <-> exists r,
         main h = Normal r
         /\ writeFile h (reportPath r) (markdownContent r) = WriteOk
         /\ map id (allControlsForConsole r)
            = [SEC01; SEC02; SEC03; SEC04; SEC05; SEC06]
         /\ Forall (fun c => status c = PASS) (allControlsForConsole r))
  /\ (exit_status (script h) <> 0 -> exit_status (script h) = 1).
Proof.
  unfold script. destruct (main h) as [r | m] eqn:Hmain.
  - destruct (main_Normal h r Hmain)
      as (controls & Hev & _ & _ & _ & Hw & Hcon & Hfin & _ & _ & Hexit).
    cbn [exit_status]. rewrite Hexit. split.
    + split.
      * intros H0. exists r.
        destruct (writeSucceeded r) eqn:Ew; [| discriminate H0].
        destruct (status_eqb (finalOverallStatus r) FAIL) eqn:Ef;
          [discriminate H0 |].
        split; [reflexivity |]. split; [apply Hw; reflexivity |]. split.
        -- rewrite Hcon, map_app, (evaluateArtifacts_five h controls Hev).
           reflexivity.
        -- apply computeOverallStatus_PASS. rewrite <- Hfin.
           destruct (finalOverallStatus r); [reflexivity | discriminate Ef].
      * intros (r' & Hr' & Hok & _ & Hall). injection Hr' as <-.
        apply Hw in Hok. rewrite Hok.
        apply computeOverallStatus_PASS in Hall. rewrite <- Hfin in Hall.
        rewrite Hall. reflexivity.
    + destruct (negb (writeSucceeded r) || _)%bool; [reflexivity | congruence].
  - cbn [exit_status]. split; [| reflexivity].
    split; [discriminate | intros (r' & Hr' & _); discriminate].
Qed.

Lemma exit_status_zero_iff_written_and_all_pass_witness :
  (exists r,
     main Examples.clean_host = Normal r
     /\ Forall (fun c => status c = PASS) (allControlsForConsole r))
  /\ exit_status (script Examples.readonly_host) = 1.
Proof.
  split.
  - destruct (proj1 (proj1 (exit_status_zero_iff_written_and_all_pass
                              Examples.clean_host)) eq_refl)
      as (r & Hr & _ & _ & Hall).
    exists r. split; assumption.
  - apply (proj2 (exit_status_zero_iff_written_and_all_pass
                    Examples.readonly_host)).
    vm_compute. discriminate.
Defined.

(** ** C8: SEC-01 on a numeric [total] *)

Lemma inferGitleaksFindingCount_total (members : list (string * json))
    (t : Z) :
  as_array (lookup_last "findings" members) = None ->
  as_array (lookup_last "Leaks" members) = None ->
  as_array (lookup_last "leaks" members) = None ->
  as_array (lookup_last "results" members) = None ->
  lookup_last "total" members = Some (JNum t) ->
  inferGitleaksFindingCount (JObj members) = counted t.
Proof.
  intros H1 H2 H3 H4 H5. unfold inferGitleaksFindingCount, get_prop.
  rewrite H1, H2, H3, H4, H5. reflexivity.
Qed.

(** C8. When the secret artifact is found, is valid JSON and is an object
    with a numeric [total] and none of the four array fields, SEC-01 is PASS
    with the "0 findings" detail for every [total] that is not greater
    than 0, negative ones included, and FAIL for every positive one. *)
Theorem sec01_passes_on_nonpositive_total (a : artifact)
    (members : list (string * json)) (t : Z) :
  found a = true ->
  parsed a = true ->
  data a = JObj members ->
  as_array (lookup_last "findings" members) = None ->
  as_array (lookup_last "Leaks" members) = None ->
  as_array (lookup_last "leaks" members) = None ->
  as_array (lookup_last "results" members) = None ->
  lookup_last "total" members = Some (JNum t) ->
  (t <= 0 ->
   evaluateSec01 a
   = mkControl SEC01 PASS "No secrets detected by Gitleaks (0 findings)")
  /\ (0 < t -> status (evaluateSec01 a) = FAIL).
Proof.
  intros Hf Hp Hd H1 H2 H3 H4 H5. unfold evaluateSec01.
  rewrite Hf, Hp, Hd,
    (inferGitleaksFindingCount_total members t H1 H2 H3 H4 H5).
  cbn [negb counted count count_error truthy_string positive_count].
  destruct (Z.gtb_spec t 0) as [Hgt | Hle]; split; intros H;
    try reflexivity; lia.
Qed.

Lemma sec01_passes_on_nonpositive_total_witness :
  evaluateSec01 (readJsonArtifact
                   (Examples.sample_host
                      [(FILES.gitleaks, ReadOk "negative total")]
                      Examples.documents WriteOk)
                   FILES.gitleaks)
  = mkControl SEC01 PASS "No secrets detected by Gitleaks (0 findings)".
Proof.
  refine (proj1 (sec01_passes_on_nonpositive_total _ [("total", JNum (-3))]
                   (-3) _ _ _ _ _ _ _ _) _);
    try reflexivity.
  lia.
Defined.

(** ** C9: read failures *)

(** C9. The reader reports [found = false] exactly when the read is rejected
    with code ENOENT.  A read rejected with any other code gives
    [found = true], [parsed = false] and a "Read error" message, and every
    control that consumes such an artifact is FAIL: SEC-01, SEC-03 and
    SEC-05 with their "is not valid JSON" detail, SEC-02 with that issue in
    its list, SEC-04 through its single missing-or-invalid branch. *)
Theorem read_error_is_found_but_invalid (h : host) (fileName : string)
    (code : option string) (m : string) :
  readFile h (path_join h (ARTIFACT_DIR h) fileName) = ReadRejected code m ->
  code <> Some "ENOENT" ->
  let a := readJsonArtifact h fileName in
  (forall f, found (readJsonArtifact h f) = false
             <-> exists m',
                 readFile h (path_join h (ARTIFACT_DIR h) f)
                 = ReadRejected (Some "ENOENT") m')
  /\ found a = true /\ parsed a = false
  /\ error a = Some ("Read error: " ++ m)
  /\ evaluateSec01 a
     = mkControl SEC01 FAIL
         ("gitleaks.json is not valid JSON (Read error: " ++ m ++ ")")
  /\ (forall s, evaluateSec03 a s
                = mkControl SEC03 FAIL
                    ("dockle.json is not valid JSON (Read error: " ++ m ++ ")"))
  /\ evaluateSec05 a
     = mkControl SEC05 FAIL
         ("sbom.json is not valid JSON (Read error: " ++ m ++ ")")
  /\ (forall b s1 s2,
        status (evaluateSec02 a b s1 s2) = FAIL
        /\ exists rest,
             details (evaluateSec02 a b s1 s2)
             = String.concat "; "
                 (("trivy-fs.json is not valid JSON (Read error: " ++ m ++ ")")
                  :: rest))
  /\ (forall b s1 s2,
        status (evaluateSec02 b a s1 s2) = FAIL
        /\ exists before,
             details (evaluateSec02 b a s1 s2)
             = String.concat "; "
                 (before ++
                  ["trivy-image.json is not valid JSON (Read error: "
                   ++ m ++ ")"]))
  /\ (forall b s1 s2,
        status (evaluateSec04 a b s1 s2) = FAIL
        /\ status (evaluateSec04 b a s1 s2) = FAIL).
Proof.
  intros Hread Hcode a.
  assert (Hcode' : code_is code "ENOENT" = false).
  { destruct code as [c |]; [| reflexivity]. cbn [code_is].
    destruct (String.eqb_spec c "ENOENT"); [congruence | reflexivity]. }
  assert (Ha : a = mkArtifact fileName
                     (path_join h (ARTIFACT_DIR h) fileName) true false JNull
                     (Some ("Read error: " ++ m))).
  { subst a. unfold readJsonArtifact. rewrite Hread, Hcode'. reflexivity. }
  split.
  { intros f. unfold readJsonArtifact.
    destruct (readFile h (path_join h (ARTIFACT_DIR h) f)) as [c | cd m'].
    - destruct (JSON_parse h c); cbn [found];
        (split; [discriminate | intros [? ?]; discriminate]).
    - destruct cd as [c |]; cbn [code_is].
      + destruct (String.eqb_spec c "ENOENT") as [-> | Hne]; cbn [found].
        * split; [eauto | reflexivity].
        * split; [discriminate | intros [? E]; congruence].
      + cbn [found]. split; [discriminate | intros [? ?]; discriminate]. }
  rewrite Ha. clear Ha a.
  split; [reflexivity |]. split; [reflexivity |]. split; [reflexivity |].
  split; [reflexivity |]. split; [reflexivity |]. split; [reflexivity |].
  split.
  { intros b s1 s2. unfold evaluateSec02.
    cbn [coverageIssue found parsed negb error show_error app length].
    split; [reflexivity |]. eexists. reflexivity. }
  split.
  { intros b s1 s2. unfold evaluateSec02.
    cbn [coverageIssue found parsed negb error show_error].
    assert (Hlen : forall l : list string,
               (Z.of_nat (length (l ++ [FILES.trivyImage
                                         ++ " is not valid JSON ("
                                         ++ "Read error: " ++ m ++ ")"]))
                >? 0) = true).
    { intros l. rewrite length_app. simpl length. apply Z.gtb_lt. lia. }
    rewrite Hlen. split; [reflexivity |]. eexists. reflexivity. }
  intros b s1 s2. unfold evaluateSec04. cbn [found parsed negb orb].
  split.
  - reflexivity.
  - destruct (negb (found b) || negb (parsed b))%bool; reflexivity.
Qed.

Lemma read_error_is_found_but_invalid_witness :
  evaluateSec01 (readJsonArtifact Examples.unreadable_host FILES.gitleaks)
  = mkControl SEC01 FAIL
      "gitleaks.json is not valid JSON (Read error: EACCES: permission denied)"
  /\ found (readJsonArtifact Examples.unreadable_host FILES.sbom) = false.
Proof.
  destruct (read_error_is_found_but_invalid Examples.unreadable_host
              FILES.gitleaks (Some "EACCES") "EACCES: permission denied"
              eq_refl ltac:(discriminate))
    as (Hfound & _ & _ & _ & H01 & _).
  split; [exact H01 |].
  apply Hfound. eexists. reflexivity.
Defined.

(** ** C10: what makes SEC-03 fail *)

Lemma sec03_status (a : artifact) (s : Dockle.summary) :
  found a = true ->
  parsed a = true ->
  status (evaluateSec03 a (Some s))
  = let c := Dockle.counts s in
    if ((or_num (Dockle.get "FATAL" c) (or_num (Dockle.get "FATL" c) 0) >? 0)
        || (or_num (Dockle.get "ERROR" c) 0 >? 0)
        || (or_num (Dockle.get "WARN" c) 0 >? 0))%bool
    then FAIL else PASS.
Proof.
  intros Hf Hp. unfold evaluateSec03. rewrite Hf, Hp. cbn [negb].
  cbv zeta.
  match goal with
  | |- status (if ?b then _ else _) = _ => destruct b; reflexivity
  end.
Qed.

Lemma or_num_positive (x : option Z) (d : Z) :
  0 < or_num x d
  <-> (exists n, x = Some n /\ 0 < n)
      \/ ((x = None \/ x = Some 0) /\ 0 < d).
Proof.
  unfold or_num. destruct x as [n |].
  - destruct (Z.eqb_spec n 0) as [-> | Hne]; split.
    + intros H. right. split; [right; reflexivity | exact H].
    + intros [(n & E & H) | [_ H]]; [injection E as <-; lia | exact H].
    + intros H. left. eauto.
    + intros [(k & E & H) | [[E | E] _]];
        [injection E as <-; exact H | discriminate | congruence].
  - split.
    + intros H. right. split; [left; reflexivity | exact H].
    + intros [(n & E & _) | [_ H]]; [discriminate | exact H].
Qed.

Lemma Dockle_get_set_other (key k : string) (v : Z) (c : Dockle.counts_t) :
  key <> k -> Dockle.get key (Dockle.set k v c) = Dockle.get key c.
Proof.
  intros Hne. induction c as [| [k' w] rest IH]; simpl.
  - destruct (String.eqb_spec key k); [contradiction | reflexivity].
  - destruct (String.eqb_spec k k') as [-> | Hk]; simpl.
    + destruct (String.eqb_spec key k'); [contradiction | reflexivity].
    + rewrite IH. reflexivity.
Qed.

(** C10. With the hardening artifact found and parsed and a summary
    available, SEC-03 is FAIL exactly when the counts map holds a positive
    count under FATAL, or under FATL while FATAL is absent or zero, or under
    ERROR, or under WARN; recording any count under any other key leaves the
    status as it was. *)
Theorem sec03_fails_iff_fatal_error_or_warn (a : artifact)
    (s : Dockle.summary) :
  found a = true ->
  parsed a = true ->
  let c := Dockle.counts s in
  (status (evaluateSec03 a (Some s)) = FAIL
   <-> positive_at "FATAL" c
       \/ (absent_or_zero "FATAL" c /\ positive_at "FATL" c)
       \/ positive_at "ERROR" c
       \/ positive_at "WARN" c)
  /\ (forall key n,
        key <> "FATAL" -> key <> "FATL" -> key <> "ERROR" -> key <> "WARN" ->
        status (evaluateSec03 a (Some (Dockle.mkSummary (Dockle.set key n c))))
        = status (evaluateSec03 a (Some s))).
Proof.
  intros Hf Hp c. split.
  - rewrite (sec03_status a s Hf Hp). cbv zeta. fold c.
    unfold positive_at, absent_or_zero.
    pose proof (or_num_positive (Dockle.get "FATAL" c)
                  (or_num (Dockle.get "FATL" c) 0)) as HF.
    pose proof (or_num_positive (Dockle.get "FATL" c) 0) as HL.
    pose proof (or_num_positive (Dockle.get "ERROR" c) 0) as HE.
    pose proof (or_num_positive (Dockle.get "WARN" c) 0) as HW.
    match goal with
    | |- (if ?b then _ else _) = _ <-> _ => destruct b eqn:Eb
    end.
    + split; [intros _ | reflexivity].
      rewrite !orb_true_iff in Eb. rewrite !Z.gtb_lt in Eb.
      destruct Eb as [[H | H] | H].
      * apply HF in H. destruct H as [H | [Hz H]]; [left; exact H |].
        apply HL in H. destruct H as [H | [_ H]]; [| lia].
        right. left. split; assumption.
      * apply HE in H. destruct H as [H | [_ H]]; [| lia].
        right. right. left. exact H.
      * apply HW in H. destruct H as [H | [_ H]]; [| lia].
        right. right. right. exact H.
    + split; [discriminate | intros H]. exfalso.
      rewrite !orb_false_iff in Eb. destruct Eb as [[E1 E2] E3].
      rewrite Z.gtb_ltb, Z.ltb_ge in E1, E2, E3.
      destruct H as [H | [[Hz H] | [H | H]]].
      * assert (0 < or_num (Dockle.get "FATAL" c)
                      (or_num (Dockle.get "FATL" c) 0))
          by (apply HF; left; exact H). lia.
      * assert (0 < or_num (Dockle.get "FATAL" c)
                      (or_num (Dockle.get "FATL" c) 0)).
        { apply HF. right. split; [exact Hz |]. apply HL. left. exact H. }
        lia.
      * assert (0 < or_num (Dockle.get "ERROR" c) 0)
          by (apply HE; left; exact H). lia.
      * assert (0 < or_num (Dockle.get "WARN" c) 0)
          by (apply HW; left; exact H). lia.
  - intros key n H1 H2 H3 H4.
    rewrite (sec03_status a s Hf Hp), (sec03_status a _ Hf Hp).
    cbv zeta. cbn [Dockle.counts]. fold c.
    rewrite !Dockle_get_set_other by congruence. reflexivity.
Qed.

Lemma sec03_fails_iff_fatal_error_or_warn_witness :
  status (evaluateSec03 (mkArtifact FILES.dockle "/app/artifacts/dockle.json"
                           true true JNull None)
            (Some (Dockle.mkSummary [("FATL", 2); ("INFO", 7)]))) = FAIL
  /\ status (evaluateSec03 (mkArtifact FILES.dockle
                              "/app/artifacts/dockle.json" true true JNull None)
               (Some (Dockle.mkSummary [("INFO", 7); ("CRITICAL", 4)]))) = PASS.
Proof.
  split.
  - apply (sec03_fails_iff_fatal_error_or_warn
             (mkArtifact FILES.dockle "/app/artifacts/dockle.json"
                true true JNull None)
             (Dockle.mkSummary [("FATL", 2); ("INFO", 7)]) eq_refl eq_refl).
    right. left. split.
    + left. reflexivity.
    + exists 2. split; [reflexivity | lia].
  - reflexivity.
Defined.

(** ** C5: the vulnerability summary *)

Lemma sum_of_counts_incr (sev : severity) (c : Trivy.counts_t) :
  sum_of_counts (Trivy.incr sev c) = sum_of_counts c + 1.
Proof. destruct sev; unfold sum_of_counts; simpl; lia. Qed.

Lemma get_incr (sev sev' : severity) (c : Trivy.counts_t) :
  Trivy.get (Trivy.incr sev c) sev'
  = Trivy.get c sev' + (if String.eqb (severity_text sev) (severity_text sev')
                        then 1 else 0).
Proof. destruct sev, sev'; simpl; lia. Qed.

Lemma countVulnerabilities_sum (vulns : list json) :
  forall c c',
    countVulnerabilities vulns c = Normal c' ->
    sum_of_counts c' = sum_of_counts c + array_length vulns.
Proof.
  unfold array_length.
  induction vulns as [| vuln rest IH]; intros c c' H.
  - injection H as <-. simpl. lia.
  - cbn [countVulnerabilities] in H. bind_inv H.
    rewrite (IH _ _ H), sum_of_counts_incr. cbn [length]. lia.
Qed.

Lemma countResults_sum (results : list json) :
  forall c c',
    countResults results c = Normal c' ->
    sum_of_counts c' = sum_of_counts c + entriesVisited results.
Proof.
  induction results as [| result rest IH]; intros c c' H.
  - injection H as <-. simpl. lia.
  - cbn [countResults entriesVisited] in *.
    destruct (truthy result).
    + destruct (as_array (get_prop result "Vulnerabilities")) as [vulns |].
      * bind_inv H.
        rewrite (IH _ _ H), (countVulnerabilities_sum _ _ _ Hx). lia.
      * rewrite (IH _ _ H). lia.
    + rewrite (IH _ _ H). lia.
Qed.

Lemma summarizeTrivyVulns_Some (data : json) (s : Trivy.summary) :
  summarizeTrivyVulns data = Normal (Some s) ->
  exists results,
    get_prop data "Results" = Some (JArr results)
    /\ countResults results Trivy.zero = Normal (Trivy.counts s)
    /\ Trivy.total s = sum_of_counts (Trivy.counts s).
Proof.
  unfold summarizeTrivyVulns. intros H.
  destruct data; try discriminate H.
  destruct (get_prop (JObj members) "Results") as [[] |] eqn:E;
    try discriminate H.
  cbn [as_array] in H. bind_inv H. injection H as <-.
  exists items. cbn [Trivy.counts Trivy.total].
  split; [reflexivity |]. split; [exact Hx |].
  unfold sum_of_counts. simpl. lia.
Qed.

(** C5. Whenever the vulnerability summarizer produces a summary, its
    [total] is CRITICAL + HIGH + MEDIUM + LOW + UNKNOWN of its counts (and
    that is the number of entries visited: each one is counted once); an
    input that is not an object with an array-valued [Results] gives no
    summary, while the recognized shape with no entry gives the zero
    summary. *)
Theorem trivy_total_is_sum_of_counts (data : json) :
  (forall s,
     summarizeTrivyVulns data = Normal (Some s) ->
     Trivy.total s
     = Trivy.get (Trivy.counts s) CRITICAL + Trivy.get (Trivy.counts s) HIGH
       + Trivy.get (Trivy.counts s) MEDIUM + Trivy.get (Trivy.counts s) LOW
       + Trivy.get (Trivy.counts s) UNKNOWN
     /\ exists results,
          get_prop data "Results" = Some (JArr results)
          /\ Trivy.total s = entriesVisited results)
  /\ (~ trivy_shape data -> summarizeTrivyVulns data = Normal None)
  /\ (get_prop data "Results" = Some (JArr []) ->
      summarizeTrivyVulns data = Normal (Some (Trivy.mkSummary 0 Trivy.zero))).
Proof.
  split; [| split].
  - intros s H.
    destruct (summarizeTrivyVulns_Some data s H) as (results & E & Hc & Ht).
    split; [exact Ht |].
    exists results. split; [exact E |].
    rewrite Ht, (countResults_sum _ _ _ Hc). reflexivity.
  - intros Hshape. unfold summarizeTrivyVulns.
    destruct data; try reflexivity.
    destruct (get_prop (JObj members) "Results") as [[] |] eqn:E;
      try reflexivity.
    exfalso. apply Hshape. exists items. exact E.
  - intros E. unfold summarizeTrivyVulns.
    destruct data; try discriminate E. rewrite E. reflexivity.
Qed.

Lemma trivy_total_is_sum_of_counts_witness :
  summarizeTrivyVulns Examples.mixed_trivy
  = Normal (Some (Trivy.mkSummary 3 (Trivy.mkCounts 0 1 0 0 2)))
  /\ 3 = 0 + 1 + 0 + 0 + 2
  /\ summarizeTrivyVulns (JArr []) = Normal None.
Proof.
  split; [reflexivity |]. split.
  - apply (proj1 (trivy_total_is_sum_of_counts Examples.mixed_trivy)
             (Trivy.mkSummary 3 (Trivy.mkCounts 0 1 0 0 2)) eq_refl).
  - apply (proj1 (proj2 (trivy_total_is_sum_of_counts (JArr [])))).
    intros [results E]. discriminate E.
Defined.

(** ** C6: severity labels in any letter case *)

Lemma toUpperCase_empty (s : string) : toUpperCase s = "" -> s = "".
Proof. destruct s; simpl; [reflexivity | discriminate]. Qed.

Lemma severity_of_string_text (sev : severity) :
  severity_of_string (severity_text sev) = Some sev.
Proof. destruct sev; reflexivity. Qed.

Lemma entrySeverity_label (vuln : json) (label : string) (sev : severity) :
  get_prop vuln "Severity" = Some (JStr label) ->
  toUpperCase label = severity_text sev ->
  entrySeverity vuln = Normal sev.
Proof.
  intros Hs Hu. unfold entrySeverity. rewrite Hs.
  destruct vuln; try discriminate Hs. cbn [truthy truthy_opt andb].
  destruct (String.eqb_spec label "") as [-> | Hne].
  - destruct sev; discriminate Hu.
  - cbn [negb ToString bind]. rewrite Hu, severity_of_string_text.
    reflexivity.
Qed.

Lemma countVulnerabilities_mono (sev : severity) (vulns : list json) :
  forall c c',
    countVulnerabilities vulns c = Normal c' ->
    Trivy.get c sev <= Trivy.get c' sev
    /\ (forall vuln, In vuln vulns -> entrySeverity vuln = Normal sev ->
                     Trivy.get c sev < Trivy.get c' sev).
Proof.
  induction vulns as [| v rest IH]; intros c c' H.
  - injection H as <-. split; [lia | intros ? []].
  - cbn [countVulnerabilities] in H. bind_inv H.
    destruct (IH _ _ H) as [Hle Hlt].
    pose proof (get_incr x sev c) as Hi.
    split.
    + destruct (String.eqb _ _) in Hi; lia.
    + intros vuln [-> | Hin] Hsev.
      * rewrite Hsev in Hx. injection Hx as <-.
        rewrite String.eqb_refl in Hi. lia.
      * specialize (Hlt vuln Hin Hsev).
        destruct (String.eqb _ _) in Hi; lia.
Qed.

Lemma countResults_mono (sev : severity) (results : list json) :
  forall c c',
    countResults results c = Normal c' ->
    Trivy.get c sev <= Trivy.get c' sev
    /\ (forall result vulns vuln,
          In result results ->
          get_prop result "Vulnerabilities" = Some (JArr vulns) ->
          In vuln vulns -> entrySeverity vuln = Normal sev ->
          Trivy.get c sev < Trivy.get c' sev).
Proof.
  induction results as [| r rest IH]; intros c c' H.
  - injection H as <-. split; [lia | intros ? ? ? []].
  - cbn [countResults] in H.
    assert (Hskip : forall c0, countResults rest c0 = Normal c' ->
              (truthy r = false
               \/ as_array (get_prop r "Vulnerabilities") = None) ->
              c0 = c ->
              Trivy.get c sev <= Trivy.get c' sev
              /\ (forall result vulns vuln,
                    In result (r :: rest) ->
                    get_prop result "Vulnerabilities" = Some (JArr vulns) ->
                    In vuln vulns -> entrySeverity vuln = Normal sev ->
                    Trivy.get c sev < Trivy.get c' sev)).
    { intros c0 H0 Hno ->. destruct (IH _ _ H0) as [Hle Hlt].
      split; [exact Hle |].
      intros result vulns vuln [-> | Hin] Hv Hin' Hsev.
      - exfalso. destruct Hno as [Hno | Hno].
        + destruct result; try discriminate Hv; discriminate Hno.
        + rewrite Hv in Hno. discriminate Hno.
      - eapply Hlt; eassumption. }
    destruct (truthy r) eqn:Et; [| apply (Hskip c H); auto].
    destruct (as_array (get_prop r "Vulnerabilities")) as [vs |] eqn:Ea;
      [| apply (Hskip c H); auto].
    bind_inv H.
    destruct (countVulnerabilities_mono sev vs _ _ Hx) as [Hle1 Hlt1].
    destruct (IH _ _ H) as [Hle2 Hlt2].
    split; [lia |].
    intros result vulns vuln [-> | Hin] Hv Hin' Hsev.
    + rewrite Hv in Ea. injection Ea as <-.
      specialize (Hlt1 vuln Hin' Hsev). lia.
    + specialize (Hlt2 result vulns vuln Hin Hv Hin' Hsev). lia.
Qed.

Lemma summary_counts_nonneg (data : json) (s : Trivy.summary)
    (sev : severity) :
  summarizeTrivyVulns data = Normal (Some s) ->
  0 <= Trivy.get (Trivy.counts s) sev.
Proof.
  intros H. destruct (summarizeTrivyVulns_Some data s H) as (rs & _ & Hc & _).
  destruct (countResults_mono sev rs _ _ Hc) as [Hle _].
  destruct sev; exact Hle.
Qed.

Lemma or_num_Some_0 (n : Z) : or_num (Some n) 0 = n.
Proof.
  unfold or_num. destruct (Z.eqb_spec n 0) as [-> | _]; reflexivity.
Qed.

Lemma sec04_fails_on_critical (fsA imgA : artifact)
    (fsS imgS : Trivy.summary) :
  0 < Trivy.get (Trivy.counts fsS) CRITICAL
      + Trivy.get (Trivy.counts imgS) CRITICAL ->
  status (evaluateSec04 fsA imgA (Some fsS) (Some imgS)) = FAIL.
Proof.
  intros Hpos. unfold evaluateSec04.
  match goal with
  | |- status (if ?b then _ else _) = _ => destruct b; [reflexivity |]
  end.
  rewrite !or_num_Some_0.
  destruct (Z.gtb_spec (Trivy.get (Trivy.counts fsS) CRITICAL
                        + Trivy.get (Trivy.counts imgS) CRITICAL) 0);
    [reflexivity | lia].
Qed.

Lemma sec04_fails_without_summary (fsA imgA : artifact)
    (fsS imgS : option Trivy.summary) :
  fsS = None \/ imgS = None ->
  status (evaluateSec04 fsA imgA fsS imgS) = FAIL.
Proof.
  intros H. unfold evaluateSec04.
  match goal with
  | |- status (if ?b then _ else _) = _ => destruct b; [reflexivity |]
  end.
  destruct H as [-> | ->]; [| destruct fsS]; reflexivity.
Qed.

Lemma upper_lower_ascii (c : ascii) :
  upper_ascii (lower_ascii c) = upper_ascii c.
Proof. destruct c as [[] [] [] [] [] [] [] []]; reflexivity. Qed.

Lemma same_ignoring_case_upper (a : string) :
  forall b, same_ignoring_case a b = true -> toUpperCase a = toUpperCase b.
Proof.
  induction a as [| x a' IH]; intros [| y b'] H; try discriminate H;
    [reflexivity |].
  cbn [same_ignoring_case] in H. apply andb_prop in H. destruct H as [Hc Hr].
  apply Ascii.eqb_eq in Hc. cbn [toUpperCase].
  rewrite <- (upper_lower_ascii x), Hc, upper_lower_ascii, (IH b' Hr).
  reflexivity.
Qed.

Lemma spells_toUpperCase (label : string) (sev : severity) :
  spells label sev -> toUpperCase label = severity_text sev.
Proof.
  intros H. rewrite (same_ignoring_case_upper label _ H).
  destruct sev; reflexivity.
Qed.

(** C6. An entry whose severity string spells a known label in any letter
    case (["critical"], ["Critical"], ["CRITICAL"] for CRITICAL; ["low"]
    for LOW) is upper-cased to that label and counted under it, and under
    no other; so the summary of an artifact holding a ["critical"] entry
    has a positive CRITICAL count, and SEC-04 is FAIL whichever of the two
    vulnerability artifacts holds it, the other one being summarized as
    [main] does. *)
Theorem lowercase_severity_is_counted_and_fails_sec04
    (doc : json) (label : string) (sev : severity) (s : Trivy.summary) :
  has_entry_with_severity doc label ->
  spells label sev ->
  summarizeTrivyVulns doc = Normal (Some s) ->
  toUpperCase label = severity_text sev
  /\ (forall vuln,
        get_prop vuln "Severity" = Some (JStr label) ->
        entrySeverity vuln = Normal sev)
  /\ 0 < Trivy.get (Trivy.counts s) sev
  /\ (sev = CRITICAL ->
      forall a other os,
        found a = true -> parsed a = true -> data a = doc ->
        (if parsed other then summarizeTrivyVulns (data other)
         else Normal None) = Normal os ->
        status (evaluateSec04 a other (Some s) os) = FAIL
        /\ status (evaluateSec04 other a os (Some s)) = FAIL).
Proof.
  intros (results & result & vulns & vuln & Hr & Hin & Hv & Hin' & Hsev)
    Hspell Hsum.
  pose proof (spells_toUpperCase label sev Hspell) as Hup.
  assert (Hpos : 0 < Trivy.get (Trivy.counts s) sev).
  { destruct (summarizeTrivyVulns_Some doc s Hsum) as (rs & Hr' & Hc & _).
    rewrite Hr in Hr'. injection Hr' as <-.
    destruct (countResults_mono sev results _ _ Hc) as [_ Hlt].
    specialize (Hlt result vulns vuln Hin Hv Hin'
                  (entrySeverity_label vuln label sev Hsev Hup)).
    destruct sev; exact Hlt. }
  split; [exact Hup |].
  split; [intros v Hv'; exact (entrySeverity_label v label sev Hv' Hup) |].
  split; [exact Hpos |].
  intros -> a other os Hf Hp Hd Hos.
  destruct os as [os |];
    [| split; apply sec04_fails_without_summary; auto].
  assert (Hnn : 0 <= Trivy.get (Trivy.counts os) CRITICAL).
  { destruct (parsed other); [| discriminate Hos].
    apply (summary_counts_nonneg (data other)). exact Hos. }
  split; apply sec04_fails_on_critical; lia.
Qed.

Lemma lowercase_severity_is_counted_and_fails_sec04_witness :
  let h := Examples.sample_host
             [ (FILES.trivyFs, ReadOk "no vulnerabilities");
               (FILES.trivyImage, ReadOk "one lowercase critical") ]
             Examples.documents WriteOk in
  let fs := readJsonArtifact h FILES.trivyFs in
  let image := readJsonArtifact h FILES.trivyImage in
  summarizeTrivyVulns (data image)
  = Normal (Some (Trivy.mkSummary 1 (Trivy.mkCounts 1 0 0 0 0)))
  /\ toUpperCase "critical" = "CRITICAL"
  /\ status (evaluateSec04 fs image
               (Some (Trivy.mkSummary 0 Trivy.zero))
               (Some (Trivy.mkSummary 1 (Trivy.mkCounts 1 0 0 0 0)))) = FAIL.
Proof.
  intros h fs image. split; [reflexivity |].
  assert (Hentry : has_entry_with_severity (data image) "critical").
  { exists [JObj [("Target", JStr "app");
                  ("Vulnerabilities",
                   JArr [JObj [("VulnerabilityID", JStr "CVE-0000-0001");
                               ("Severity", JStr "critical")]])]],
      (JObj [("Target", JStr "app");
             ("Vulnerabilities",
              JArr [JObj [("VulnerabilityID", JStr "CVE-0000-0001");
                          ("Severity", JStr "critical")]])]),
      [JObj [("VulnerabilityID", JStr "CVE-0000-0001");
             ("Severity", JStr "critical")]],
      (JObj [("VulnerabilityID", JStr "CVE-0000-0001");
             ("Severity", JStr "critical")]).
    repeat split; try reflexivity; left; reflexivity. }
  destruct (lowercase_severity_is_counted_and_fails_sec04
              (data image) "critical" CRITICAL
              (Trivy.mkSummary 1 (Trivy.mkCounts 1 0 0 0 0))
              Hentry eq_refl eq_refl) as (Hup & _ & _ & Hsec).
  split; [exact Hup |].
  exact (proj2 (Hsec eq_refl image fs (Some (Trivy.mkSummary 0 Trivy.zero))
                  eq_refl eq_refl eq_refl eq_refl)).
Defined.

(** ** C4: when the hardening summary is unavailable *)

(** C4. The claim, like the README ("if Dockle JSON exists but the
    structure is unrecognised, the control is ... marked PASS with a note
    that the summary was unavailable"), takes an object with none of the
    recognized fields for unrecognized.  At such an object the code does
    otherwise: the summarizer answers with the empty summary, not with
    "unavailable", and SEC-03 reports a clean scan without the note. *)
Lemma object_without_recognized_fields_is_summarized :
  let data := JObj [("image", JStr "app:latest")] in
  ~ dockle_shape data
  /\ summarizeDockleFindings data = Normal (Some (Dockle.mkSummary []))
  /\ summarizeDockleFindings data <> Normal None
  /\ evaluateSec03 (mkArtifact FILES.dockle "/app/artifacts/dockle.json"
                      true true data None)
                   (Some (Dockle.mkSummary []))
     = mkControl SEC03 PASS "Dockle scan clean (no findings)".
Proof.
  intros data. split; [| split; [reflexivity | split;
                                   [discriminate | reflexivity]]].
  intros [[items E] | [[ds E] | (level & E & _)]]; discriminate E.
Qed.

(** Where the summarizer does answer "unavailable": exactly at [null],
    booleans, numbers and strings.  An object with no [details] array and
    no truthy [level], the empty array, and an object whose [details] is
    empty and that has no truthy [level] get the empty summary. *)
Theorem dockle_summary_unavailable_iff_primitive (data : json) :
  (summarizeDockleFindings data = Normal None <-> primitive data = true)
  /\ (forall members,
        data = JObj members ->
        as_array (lookup_last "details" members) = None ->
        truthy_opt (lookup_last "level" members) = false ->
        summarizeDockleFindings data = Normal (Some (Dockle.mkSummary [])))
  /\ (data = JArr [] ->
      summarizeDockleFindings data = Normal (Some (Dockle.mkSummary [])))
  /\ (forall members,
        data = JObj members ->
        lookup_last "details" members = Some (JArr []) ->
        truthy_opt (lookup_last "level" members) = false ->
        summarizeDockleFindings data = Normal (Some (Dockle.mkSummary []))).
Proof.
  split; [| split; [| split]].
  - destruct data; (split; intros H); try reflexivity; try discriminate H;
      exfalso; unfold summarizeDockleFindings in H; repeat bind_inv H;
      destruct (Z.of_nat _ =? 0) in H; discriminate H.
  - intros members -> Hd Hl. unfold summarizeDockleFindings, get_prop.
    rewrite Hd. cbn [bind].
    destruct (lookup_last "level" members) as [level |]; [| reflexivity].
    cbn [truthy_opt] in Hl. rewrite Hl. reflexivity.
  - intros ->. reflexivity.
  - intros members -> Hd Hl. unfold summarizeDockleFindings, get_prop.
    rewrite Hd. cbn [as_array bumpDetails bind].
    destruct (lookup_last "level" members) as [level |]; [| reflexivity].
    cbn [truthy_opt] in Hl. rewrite Hl. reflexivity.
Qed.

Lemma dockle_summary_unavailable_iff_primitive_witness :
  summarizeDockleFindings (JNum 5) = Normal None
  /\ summarizeDockleFindings (JObj [("image", JStr "app:latest")])
     = Normal (Some (Dockle.mkSummary []))
  /\ summarizeDockleFindings (JObj [("details", JArr [])])
     = Normal (Some (Dockle.mkSummary [])).
Proof.
  split; [| split].
  - apply (proj1 (dockle_summary_unavailable_iff_primitive (JNum 5))).
    reflexivity.
  - apply (proj1 (proj2 (dockle_summary_unavailable_iff_primitive
                           (JObj [("image", JStr "app:latest")])))
             [("image", JStr "app:latest")]); reflexivity.
  - apply (proj2 (proj2 (proj2 (dockle_summary_unavailable_iff_primitive
                                  (JObj [("details", JArr [])]))))
             [("details", JArr [])]); reflexivity.
Defined.

(** ** C2: which controls fail closed *)

Lemma inferGitleaksFindingCount_cases (d : json) :
  (exists n, inferGitleaksFindingCount d = counted n)
  \/ inferGitleaksFindingCount d
     = mkFindingCount None
         (Some "Unknown Gitleaks JSON structure (no findings array found)").
Proof.
  unfold inferGitleaksFindingCount.
  destruct d; try (right; reflexivity); [left; eauto |].
  repeat match goal with
         | |- context [match as_array ?o with Some _ => _ | None => _ end] =>
             destruct (as_array o); [left; eauto |]
         end.
  destruct (as_number _); [left; eauto | right; reflexivity].
Qed.

(** C2, as the specification states it, fails for SEC-03: a hardening
    artifact that parses to a number has no recognized shape, its summary is
    unavailable, and the control is PASS, here and in a whole run. *)
Lemma sec03_passes_on_unrecognized_shape :
  let h := Examples.sample_host [(FILES.dockle, ReadOk "a number")]
             Examples.documents WriteOk in
  let dockle := readJsonArtifact h FILES.dockle in
  found dockle = true /\ parsed dockle = true /\ data dockle = JNum 5
  /\ ~ dockle_shape (data dockle)
  /\ summarizeDockleFindings (data dockle) = Normal None
  /\ evaluateSec03 dockle None
     = mkControl SEC03 PASS
         "dockle.json present and valid (unable to infer finding levels; treating as informational)"
  /\ exists controls,
       evaluateArtifacts h = Normal controls
       /\ nth_error controls 2 = Some (evaluateSec03 dockle None).
Proof.
  intros h dockle.
  repeat (split; [reflexivity |]).
  split.
  { intros [[items E] | [[ds E] | (level & E & _)]]; discriminate E. }
  repeat (split; [reflexivity |]).
  eexists. split; reflexivity.
Qed.

Lemma inferGitleaksFindingCount_unknown (d : json) :
  ~ gitleaks_shape d ->
  inferGitleaksFindingCount d
  = mkFindingCount None
      (Some "Unknown Gitleaks JSON structure (no findings array found)").
Proof.
  intros Hshape. unfold inferGitleaksFindingCount.
  destruct d as [| b | n | s | items | members]; try reflexivity.
  - exfalso. apply Hshape. left. eauto.
  - assert (Harr : forall key,
               In key ["findings"; "Leaks"; "leaks"; "results"] ->
               as_array (get_prop (JObj members) key) = None).
    { intros key Hkey.
      destruct (get_prop (JObj members) key) as [[| | | | items |] |] eqn:E;
        try reflexivity.
      exfalso. apply Hshape. right. left. exists key, items.
      split; assumption. }
    rewrite (Harr "findings"), (Harr "Leaks"), (Harr "leaks"),
      (Harr "results") by (simpl; auto).
    destruct (get_prop (JObj members) "total") as [[| | n | | |] |] eqn:E;
      try reflexivity.
    exfalso. apply Hshape. right. right. exists n. exact E.
Qed.

Lemma summarizeTrivyVulns_unrecognized (d : json) :
  ~ trivy_shape d -> summarizeTrivyVulns d = Normal None.
Proof.
  intros Hshape. unfold summarizeTrivyVulns.
  destruct d; try reflexivity.
  destruct (get_prop (JObj members) "Results") as [[] |] eqn:E;
    try reflexivity.
  exfalso. apply Hshape. exists items. exact E.
Qed.

(** C2, amended. A missing or unparseable artifact makes each control that
    consumes it FAIL (SEC-01 to SEC-05), and a failed write makes SEC-06
    FAIL in the final verdicts.  A parsed secret artifact of no recognized
    shape (not an array, no array under the four names, no numeric [total])
    makes SEC-01 FAIL with the unknown-structure detail; a parsed
    vulnerability artifact that is not an object with an array-valued
    [Results] has no summary and makes SEC-04 FAIL.  But a parsed hardening
    artifact that is neither an array nor an object has no summary and
    SEC-03 is PASS with the informational detail; and SEC-02 and SEC-05 are
    PASS for every found and parsed artifact, whatever it holds. *)
Theorem controls_fail_closed_on_missing_or_invalid (a : artifact) :
  (found a = false \/ parsed a = false ->
   status (evaluateSec01 a) = FAIL
   /\ (forall s, status (evaluateSec03 a s) = FAIL)
   /\ status (evaluateSec05 a) = FAIL
   /\ (forall b s1 s2,
         status (evaluateSec02 a b s1 s2) = FAIL
         /\ status (evaluateSec02 b a s1 s2) = FAIL
         /\ status (evaluateSec04 a b s1 s2) = FAIL
         /\ status (evaluateSec04 b a s1 s2) = FAIL))
  /\ (found a = true -> parsed a = true -> ~ gitleaks_shape (data a) ->
      evaluateSec01 a
      = mkControl SEC01 FAIL
          "Unable to determine findings in gitleaks.json: Unknown Gitleaks JSON structure (no findings array found)")
  /\ (~ trivy_shape (data a) ->
      summarizeTrivyVulns (data a) = Normal None
      /\ forall b os,
           status (evaluateSec04 a b None os) = FAIL
           /\ status (evaluateSec04 b a os None) = FAIL)
  /\ (forall h r,
        main h = Normal r ->
        writeFile h (reportPath r) (markdownContent r) <> WriteOk ->
        In (mkControl SEC06 FAIL
              ("Failed to generate report at " ++ reportPath r))
           (allControlsForConsole r)
        /\ exit_status (script h) = 1)
  /\ (found a = true -> parsed a = true ->
      (primitive (data a) = true ->
       summarizeDockleFindings (data a) = Normal None
       /\ evaluateSec03 a None
          = mkControl SEC03 PASS
              "dockle.json present and valid (unable to infer finding levels; treating as informational)")
      /\ status (evaluateSec05 a) = PASS
      /\ (forall b s1 s2,
            found b = true -> parsed b = true ->
            status (evaluateSec02 a b s1 s2) = PASS)).
Proof.
  split; [| split; [| split; [| split]]].
  - intros Hbad.
    assert (Hor : (negb (found a) || negb (parsed a))%bool = true).
    { destruct Hbad as [-> | ->]; [reflexivity | apply orb_true_r]. }
    split; [| split; [| split]].
    + unfold evaluateSec01.
      destruct (found a), (parsed a); try reflexivity; discriminate Hor.
    + intros s. unfold evaluateSec03.
      destruct (found a), (parsed a); try reflexivity; discriminate Hor.
    + unfold evaluateSec05.
      destruct (found a), (parsed a); try reflexivity; discriminate Hor.
    + intros b s1 s2. unfold evaluateSec02, evaluateSec04, coverageIssue.
      rewrite Hor.
      destruct (found a), (parsed a); try discriminate Hor;
        destruct (found b), (parsed b); repeat split; reflexivity.
  - intros Hf Hp Hshape. unfold evaluateSec01. rewrite Hf, Hp.
    rewrite (inferGitleaksFindingCount_unknown _ Hshape). reflexivity.
  - intros Hshape. split; [apply summarizeTrivyVulns_unrecognized; exact Hshape |].
    intros b os. split; apply sec04_fails_without_summary; auto.
  - intros h r Hmain Hw.
    destruct (main_Normal h r Hmain)
      as (controls & _ & _ & _ & _ & Hok & Hcon & _ & _ & _ & Hexit).
    assert (Ew : writeSucceeded r = false).
    { destruct (writeSucceeded r); [| reflexivity].
      exfalso. apply Hw, Hok. reflexivity. }
    split.
    + rewrite Hcon, Ew. apply in_or_app. right. left. reflexivity.
    + unfold script. rewrite Hmain. cbn [exit_status].
      rewrite Hexit, Ew. reflexivity.
  - intros Hf Hp. split; [| split].
    + intros Hprim. split.
      * destruct (data a); try discriminate Hprim; reflexivity.
      * unfold evaluateSec03. rewrite Hf, Hp. reflexivity.
    + unfold evaluateSec05. rewrite Hf, Hp. reflexivity.
    + intros b s1 s2 Hfb Hpb. unfold evaluateSec02, coverageIssue.
      rewrite Hf, Hp, Hfb, Hpb. reflexivity.
Qed.

Lemma controls_fail_closed_on_missing_or_invalid_witness :
  let missing := readJsonArtifact Examples.empty_host FILES.gitleaks in
  status (evaluateSec01 missing) = FAIL
  /\ status (evaluateSec03 missing None) = FAIL
  /\ status (evaluateSec01 (mkArtifact FILES.gitleaks
                              "/app/artifacts/gitleaks.json" true true
                              (JObj [("version", JStr "8.24.3")]) None))
     = FAIL
  /\ exit_status (script Examples.readonly_host) = 1.
Proof.
  intros missing.
  destruct (proj1 (controls_fail_closed_on_missing_or_invalid missing)
              (or_introl eq_refl)) as (H1 & H3 & _).
  split; [exact H1 |]. split; [apply H3 |]. split.
  - rewrite (proj1 (proj2 (controls_fail_closed_on_missing_or_invalid
                             (mkArtifact FILES.gitleaks
                                "/app/artifacts/gitleaks.json" true true
                                (JObj [("version", JStr "8.24.3")]) None)))
               eq_refl eq_refl).
    + reflexivity.
    + intros [[items E] | [(key & items & Hkey & E) | [n E]]];
        try discriminate E.
      destruct Hkey as [<- | [<- | [<- | [<- | []]]]]; discriminate E.
  - refine (proj2 (proj1 (proj2 (proj2 (proj2
              (controls_fail_closed_on_missing_or_invalid missing))))
              Examples.readonly_host _ eq_refl _)).
    vm_compute. discriminate.
Defined.

(** ** C7: pipes in the control table *)

Lemma escapeMarkdown_no_delimiter (d : string) :
  forall b, count_delimiters b (escapeMarkdown d) = 0%nat.
Proof.
  induction d as [| c rest IH]; intros b; [reflexivity |].
  cbn [escapeMarkdown].
  destruct (Ascii.eqb_spec c "|"%char) as [-> | Hne].
  - cbn [count_delimiters]. rewrite IH. reflexivity.
  - cbn [count_delimiters]. rewrite IH.
    destruct (Ascii.eqb_spec c "|"%char); [contradiction | reflexivity].
Qed.

Lemma escapeMarkdown_then_space (d t : string) :
  forall b,
    count_delimiters b (escapeMarkdown d ++ String " "%char t)
    = count_delimiters false t.
Proof.
  induction d as [| c rest IH]; intros b; [reflexivity |].
  cbn [escapeMarkdown].
  destruct (Ascii.eqb_spec c "|"%char) as [-> | Hne].
  - cbn [append count_delimiters]. rewrite IH. reflexivity.
  - cbn [append count_delimiters]. rewrite IH.
    destruct (Ascii.eqb_spec c "|"%char); [contradiction | reflexivity].
Qed.

Lemma escapeMarkdown_head (d : string) :
  match escapeMarkdown d with
  | String c _ => c <> "|"%char
  | EmptyString => True
  end.
Proof.
  destruct d as [| c rest]; [exact I |]. cbn [escapeMarkdown].
  destruct (Ascii.eqb_spec c "|"%char); [discriminate | assumption].
Qed.

Lemma unescape_escapeMarkdown (d : string) :
  unescapeMarkdown (escapeMarkdown d) = d.
Proof.
  induction d as [| c rest IH]; [reflexivity |].
  cbn [escapeMarkdown].
  destruct (Ascii.eqb_spec c "|"%char) as [-> | Hne].
  - cbn [unescapeMarkdown Ascii.eqb Bool.eqb andb]. rewrite IH. reflexivity.
  - cbn [unescapeMarkdown]. pose proof (escapeMarkdown_head rest) as Hh.
    destruct (escapeMarkdown rest) as [| c' rest'] eqn:E.
    + rewrite <- IH. reflexivity.
    + destruct (Ascii.eqb_spec c' "|"%char); [contradiction |].
      rewrite andb_false_r, IH. reflexivity.
Qed.

Lemma single_line_app (a b : string) :
  single_line (a ++ b) = (single_line a && single_line b)%bool.
Proof.
  induction a as [| c rest IH]; [reflexivity |].
  cbn [append single_line]. rewrite IH, andb_assoc. reflexivity.
Qed.

Lemma single_line_escapeMarkdown (d : string) :
  single_line (escapeMarkdown d) = single_line d.
Proof.
  induction d as [| c rest IH]; [reflexivity |].
  cbn [escapeMarkdown].
  destruct (Ascii.eqb_spec c "|"%char) as [-> | Hne];
    cbn [single_line]; rewrite IH; reflexivity.
Qed.

Lemma tableRow_delimiters (c : control) : delimiters (tableRow c) = 4%nat.
Proof.
  destruct c as [i st d]. unfold delimiters, tableRow.
  cbn [id status details].
  destruct i, st; cbn [id_text status_text append count_delimiters
                       Ascii.eqb Bool.eqb andb negb Nat.add];
    rewrite (escapeMarkdown_then_space d "|"); reflexivity.
Qed.

Lemma tableRow_single_line (c : control) :
  single_line (tableRow c) = single_line (details c).
Proof.
  destruct c as [i st d]. unfold tableRow. cbn [id status details].
  rewrite !single_line_app, single_line_escapeMarkdown.
  destruct i, st; cbn; rewrite andb_true_r; reflexivity.
Qed.

Lemma split_lines_single (l : string) :
  single_line l = true -> split_lines l = [l].
Proof.
  induction l as [| c rest IH]; intros H; [reflexivity |].
  cbn [single_line] in H. apply andb_prop in H. destruct H as [H Hrest].
  apply andb_prop in H. destruct H as [Hlf _].
  cbn [split_lines]. apply negb_true_iff in Hlf. rewrite Hlf, (IH Hrest).
  reflexivity.
Qed.

Lemma split_lines_cons (l rest : string) :
  single_line l = true ->
  split_lines (l ++ LF ++ rest) = l :: split_lines rest.
Proof.
  induction l as [| c l' IH]; intros H; [reflexivity |].
  cbn [single_line] in H. apply andb_prop in H. destruct H as [H Hrest].
  apply andb_prop in H. destruct H as [Hlf _].
  cbn [append split_lines]. apply negb_true_iff in Hlf.
  rewrite Hlf, (IH Hrest). reflexivity.
Qed.

Lemma split_lines_concat (lines : list string) :
  lines <> [] ->
  Forall (fun l => single_line l = true) lines ->
  split_lines (String.concat LF lines) = lines.
Proof.
  induction lines as [| l rest IH]; intros Hne Hall; [contradiction |].
  inversion Hall as [| ? ? Hl Hrest]; subst.
  destruct rest as [| l' rest'].
  - cbn [String.concat]. apply split_lines_single. exact Hl.
  - change (String.concat LF (l :: l' :: rest'))
      with (l ++ LF ++ String.concat LF (l' :: rest')).
    rewrite (split_lines_cons _ _ Hl), IH; [reflexivity | discriminate |
                                              exact Hrest].
Qed.

Lemma env_or_single_line (h : host) (k d : string) :
  single_line_host h -> single_line d = true ->
  single_line (env_or h k d) = true.
Proof.
  intros Hh Hd. unfold env_or. destruct (env h k) as [v |] eqn:E; [| exact Hd].
  destruct (String.eqb v ""); [exact Hd | exact (Hh k v E)].
Qed.

Ltac single_line_parts :=
  rewrite ?single_line_app;
  repeat (apply andb_true_intro; split);
  try reflexivity; try assumption;
  try (apply env_or_single_line; [assumption | reflexivity]).

Lemma renderLines_single_line (h : host) (controls : list control)
    (overallStatus : Status) (timestamp : string) :
  single_line_host h ->
  single_line timestamp = true ->
  Forall (fun c => single_line (details c) = true) controls ->
  Forall (fun l => single_line l = true)
         (renderLines h controls overallStatus timestamp).
Proof.
  intros Hh Hts Hall. unfold renderLines.
  apply Forall_app; split; [| apply Forall_app; split;
                              [| apply Forall_app; split]].
  - repeat (apply Forall_cons; [single_line_parts |]); try apply Forall_nil.
    destruct (env h "GITHUB_RUN_ID") as [runId |] eqn:E; [| reflexivity].
    destruct (negb (String.eqb runId "") && _)%bool; [| reflexivity].
    pose proof (Hh _ _ E). single_line_parts.
  - apply Forall_forall. intros l Hl. apply in_map_iff in Hl.
    destruct Hl as (c & <- & Hc). rewrite tableRow_single_line.
    rewrite Forall_forall in Hall. exact (Hall c Hc).
  - repeat (apply Forall_cons; [single_line_parts |]); try apply Forall_nil.
    destruct overallStatus; reflexivity.
  - destruct (Z.of_nat _ >? 0); [| apply Forall_nil].
    apply Forall_app; split; [repeat constructor |].
    apply Forall_app; split; [| repeat constructor].
    apply Forall_forall. intros l Hl. apply in_map_iff in Hl.
    destruct Hl as (c & <- & Hc). apply filter_In in Hc. destruct Hc as [Hc _].
    rewrite Forall_forall in Hall. pose proof (Hall c Hc).
    single_line_parts. destruct (id c); reflexivity.
Qed.

Lemma renderLines_after_separator (h : host) (controls : list control)
    (overallStatus : Status) (timestamp : string) :
  exists tail,
    renderLines h controls overallStatus timestamp <> []
    /\ after_separator (renderLines h controls overallStatus timestamp)
       = (map tableRow controls ++ EmptyString :: tail)%list.
Proof.
  eexists. split; [discriminate |]. reflexivity.
Qed.

Lemma until_blank_rows (controls : list control) (tail : list string) :
  until_blank (map tableRow controls ++ EmptyString :: tail)
  = map tableRow controls.
Proof.
  induction controls as [| c rest IH]; [reflexivity |].
  cbn [map app until_blank]. rewrite IH. reflexivity.
Qed.

(** C7, as the specification states it, fails: in a run whose hardening
    artifact holds a level with a pipe and a line feed, the SEC-03 details
    hold a pipe, the pipe is escaped, and still the table of the printed
    report has a line with three delimiters followed by a line with one. *)
Lemma line_feed_in_details_breaks_the_row :
  let h := Examples.sample_host
             [(FILES.dockle, ReadOk "a level over two lines")]
             Examples.documents WriteOk in
  exists r sec03,
    main h = Normal r
    /\ nth_error (allControlsForConsole r) 2 = Some sec03
    /\ details sec03 = "Dockle scan clean (NOTE|SEE" ++ LF ++ "BELOW: 1)"
    /\ has_pipe (details sec03) = true
    /\ nth_error (table_lines (consoleMarkdown r)) 2
       = Some "| SEC-03 | PASS | Dockle scan clean (NOTE\|SEE"
    /\ nth_error (table_lines (consoleMarkdown r)) 3 = Some "BELOW: 1) |"
    /\ delimiters "| SEC-03 | PASS | Dockle scan clean (NOTE\|SEE" = 3%nat
    /\ delimiters "BELOW: 1) |" = 1%nat
    /\ ~ Forall (fun line => delimiters line = 4%nat)
                (table_lines (consoleMarkdown r))
    /\ table_lines (markdownContent r) <> map tableRow (allControlsForFile r).
Proof.
  intros h. eexists. eexists.
  split; [vm_compute; reflexivity |].
  split; [vm_compute; reflexivity |].
  repeat (split; [vm_compute; reflexivity |]).
  split.
  - intros H. rewrite Forall_forall in H.
    specialize (H "BELOW: 1) |"). vm_compute in H.
    assert (E : 1%nat = 4%nat) by (apply H; tauto). discriminate E.
  - vm_compute. discriminate.
Qed.

(** C7, amended. Every [|] of a details string is rendered as [\|] and
    nothing else is changed, so the row of a verdict has exactly the four
    delimiters of a three-column row; when no details string, the timestamp
    and the pipeline metadata hold no line break, the table of the rendered
    report consists of exactly these rows, one line each. *)
Theorem pipes_are_escaped_in_table_rows (h : host) (controls : list control)
    (overallStatus : Status) (timestamp : string) :
  single_line_host h ->
  single_line timestamp = true ->
  Forall (fun c => single_line (details c) = true) controls ->
  (forall c : control,
     unescapeMarkdown (escapeMarkdown (details c)) = details c
     /\ delimiters (escapeMarkdown (details c)) = 0%nat
     /\ delimiters (tableRow c) = 4%nat)
  /\ table_lines (renderMarkdown h controls overallStatus timestamp)
     = map tableRow controls
  /\ Forall (fun line => delimiters line = 4%nat)
            (table_lines (renderMarkdown h controls overallStatus timestamp)).
Proof.
  intros Hh Hts Hall.
  assert (Htable :
            table_lines (renderMarkdown h controls overallStatus timestamp)
            = map tableRow controls).
  { unfold table_lines, renderMarkdown.
    destruct (renderLines_after_separator h controls overallStatus timestamp)
      as (tail & Hne & Hafter).
    rewrite split_lines_concat;
      [| exact Hne | apply renderLines_single_line; assumption].
    rewrite Hafter. apply until_blank_rows. }
  split; [| split].
  - intros c. split; [apply unescape_escapeMarkdown |].
    split; [apply escapeMarkdown_no_delimiter | apply tableRow_delimiters].
  - exact Htable.
  - rewrite Htable. apply Forall_forall. intros l Hl.
    apply in_map_iff in Hl. destruct Hl as (c & <- & _).
    apply tableRow_delimiters.
Qed.

Lemma pipes_are_escaped_in_table_rows_witness :
  table_lines
    (renderMarkdown Examples.clean_host
       [mkControl SEC03 FAIL "Dockle reported hardening issues (A|B: 1, WARN: 2)"]
       FAIL "2024-01-01T00:00:00.000Z")
  = ["| SEC-03 | FAIL | Dockle reported hardening issues (A\|B: 1, WARN: 2) |"].
Proof.
  refine (proj1 (proj2 (pipes_are_escaped_in_table_rows Examples.clean_host
                          [mkControl SEC03 FAIL
                             "Dockle reported hardening issues (A|B: 1, WARN: 2)"]
                          FAIL "2024-01-01T00:00:00.000Z" _ eq_refl _))).
  - intros k v E. discriminate E.
  - repeat constructor.
Defined.

(** ** C3: the persisted document and the console document *)







Lemma table_lines_renderMarkdown (h : host) (controls : list control)
    (overallStatus : Status) (timestamp : string) :
  single_line_host h ->
  single_line timestamp = true ->
  Forall (fun c => single_line (details c) = true) controls ->
  split_lines (renderMarkdown h controls overallStatus timestamp)
  = renderLines h controls overallStatus timestamp
  /\ table_lines (renderMarkdown h controls overallStatus timestamp)
     = map tableRow controls.
Proof.
  intros Hh Hts Hall.
  destruct (renderLines_after_separator h controls overallStatus timestamp)
    as (tail & Hne & Hafter).
  assert (Hsplit :
            split_lines (renderMarkdown h controls overallStatus timestamp)
            = renderLines h controls overallStatus timestamp).
  { unfold renderMarkdown. apply split_lines_concat;
      [exact Hne | apply renderLines_single_line; assumption]. }
  split; [exact Hsplit |].
  unfold table_lines. rewrite Hsplit, Hafter. apply until_blank_rows.
Qed.




(** * Further properties of the script *)

Ltac destruct_hyps :=
  repeat match goal with
         | H : _ /\ _ |- _ => destruct H
         | H : exists _, _ |- _ => destruct H
         | H : _ \/ _ |- _ => destruct H
         end.

(** ** The artifact reader *)

(** X1. The reader classifies a file in exactly three ways.  [parsed]
    implies [found]; [parsed] holds exactly when the read succeeded and the
    text parsed, and then [data] is the parsed value and [error] is [null];
    otherwise [data] stays [null] and [error] holds a message. *)
Theorem reader_classifies_artifact (h : host) (fileName : string) :
  let a := readJsonArtifact h fileName in
  name a = fileName
  /\ fullPath a = path_join h (ARTIFACT_DIR h) fileName
  /\ (parsed a = true -> found a = true)
  /\ (parsed a = true
      <-> exists content,
            readFile h (fullPath a) = ReadOk content
            /\ JSON_parse h content = ParseOk (data a))
  /\ (parsed a = false -> data a = JNull)
  /\ (error a = None <-> parsed a = true)
  /\ (found a = true /\ parsed a = false
      <-> (exists content m,
             readFile h (fullPath a) = ReadOk content
             /\ JSON_parse h content = ParseThrows m
             /\ error a = Some ("Invalid JSON: " ++ m))
          \/ (exists code m,
                readFile h (fullPath a) = ReadRejected code m
                /\ code_is code "ENOENT" = false
                /\ error a = Some ("Read error: " ++ m))).
Proof.
  intros a. subst a. unfold readJsonArtifact.
  destruct (readFile h (path_join h (ARTIFACT_DIR h) fileName))
    as [content | code m] eqn:Er;
    [destruct (JSON_parse h content) as [v | m] eqn:Ep
    | destruct (code_is code "ENOENT") eqn:Ec];
    cbn [name fullPath found parsed data error]; rewrite Er;
    repeat split; try reflexivity; try discriminate;
    try solve [ intros; destruct_hyps; congruence ].
  - exists content. split; [reflexivity | exact Ep].
  - intros _. left. exists content, m. repeat split. exact Ep.
  - intros _. right. exists code, m. repeat split. exact Ec.
Qed.

(** ** The secret-finding counter and SEC-01 *)

Lemma array_length_nonneg (l : list json) : 0 <= array_length l.
Proof. unfold array_length. lia. Qed.

(** X2. The counter answers with a count or with the unknown-structure
    error, never both and never neither.  A value that is neither an array
    nor an object is unknown; a bare array counts its length; and a negative
    count can only be the object's numeric [total]. *)
Theorem gitleaks_count_xor_error (d : json) :
  let r := inferGitleaksFindingCount d in
  (count r = None <-> count_error r <> None)
  /\ (count_error r <> None ->
      count_error r
      = Some "Unknown Gitleaks JSON structure (no findings array found)")
  /\ (primitive d = true -> count r = None)
  /\ (forall items, d = JArr items -> count r = Some (array_length items))
  /\ (forall n, count r = Some n -> n < 0 ->
                get_prop d "total" = Some (JNum n)).
Proof.
  intros r. subst r. unfold inferGitleaksFindingCount.
  destruct d as [| b | n | s | items | members];
    cbn [counted count count_error primitive];
    try (repeat split; intros; try reflexivity; try discriminate;
         try congruence; fail).
  - repeat split; intros; try reflexivity; try discriminate; try congruence.
    injection H as <-. pose proof (array_length_nonneg items). lia.
  - repeat match goal with
           | |- context [match as_array ?o with Some _ => _ | None => _ end] =>
               let l := fresh "l" in
               destruct (as_array o) as [l |];
               [ cbn [counted count count_error];
                 repeat split; intros; try reflexivity; try discriminate;
                 try congruence;
                 match goal with
                 | H : Some _ = Some ?n, Hn : ?n < 0 |- _ =>
                     injection H as <-;
                     pose proof (array_length_nonneg l); lia
                 end
               | ]
           end.
    destruct (get_prop (JObj members) "total") as [[| | t | | |] |] eqn:Et;
      cbn [as_number counted count count_error];
      repeat split; intros; try reflexivity; try discriminate;
      try congruence.
Qed.

(** X3. SEC-01 is PASS exactly when the artifact was found and parsed and
    the counter inferred a count that is not positive; a positive count
    below 2^53 is reported in the details by its decimal digits. *)
Theorem sec01_pass_iff_count_not_positive (a : artifact) :
  (status (evaluateSec01 a) = PASS
   <-> found a = true /\ parsed a = true
       /\ exists n, count (inferGitleaksFindingCount (data a)) = Some n
                    /\ n <= 0)
  /\ (forall n,
        found a = true -> parsed a = true ->
        count (inferGitleaksFindingCount (data a)) = Some n ->
        0 < n -> n < MAX_EXACT ->
        evaluateSec01 a
        = mkControl SEC01 FAIL
            ("Gitleaks detected " ++ Number_toString n
             ++ " potential secret(s)")).
Proof.
  unfold evaluateSec01.
  destruct (found a); cbn [negb];
    [| split; [split; [discriminate | intros (E & _); discriminate E]
              | intros; discriminate]].
  destruct (parsed a); cbn [negb];
    [| split; [split; [discriminate | intros (_ & E & _); discriminate E]
              | intros; discriminate]].
  destruct (inferGitleaksFindingCount_cases (data a)) as [[k E] | E];
    rewrite E; cbn [counted count count_error truthy_string positive_count
                    show_count String.eqb negb].
  - destruct (Z.gtb_spec k 0) as [Hgt | Hle]; cbn [status]; split.
    + split; [discriminate |].
      intros (_ & _ & n & En & Hn). injection En as <-. lia.
    + intros n _ _ En _ _. injection En as <-. reflexivity.
    + split; [intros _ | reflexivity].
      split; [reflexivity |]. split; [reflexivity |]. exists k. split;
        [reflexivity | exact Hle].
    + intros n _ _ En Hn _. injection En as <-. lia.
  - cbn [status]. split.
    + split; [discriminate | intros (_ & _ & n & En & _); discriminate En].
    + intros n _ _ En. discriminate En.
Qed.

Lemma sec01_pass_iff_count_not_positive_witness :
  evaluateSec01 (mkArtifact FILES.gitleaks "/app/artifacts/gitleaks.json"
                   true true
                   (JObj [("findings", JArr [JObj []; JObj []])]) None)
  = mkControl SEC01 FAIL "Gitleaks detected 2 potential secret(s)".
Proof.
  apply (proj2 (sec01_pass_iff_count_not_positive
                  (mkArtifact FILES.gitleaks "/app/artifacts/gitleaks.json"
                     true true
                     (JObj [("findings", JArr [JObj []; JObj []])]) None))
           2 eq_refl eq_refl eq_refl); reflexivity.
Defined.

(** ** SEC-02, SEC-04 and SEC-05 *)

(** X4. SEC-02 is PASS exactly when both vulnerability artifacts were found
    and parsed; the two summaries only change its details, never its
    status. *)
Theorem sec02_pass_iff_both_present_and_valid (a b : artifact)
    (s1 s2 : option Trivy.summary) :
  (status (evaluateSec02 a b s1 s2) = PASS
   <-> found a = true /\ parsed a = true /\ found b = true /\ parsed b = true)
  /\ (forall s1' s2',
        status (evaluateSec02 a b s1' s2') = status (evaluateSec02 a b s1 s2)).
Proof.
  unfold evaluateSec02, coverageIssue.
  destruct (found a), (parsed a), (found b), (parsed b);
    cbn [negb app length Z.of_nat Z.gtb Z.compare status];
    (split; [split; [try discriminate; intros _; repeat split
                    | try reflexivity; intros (? & ? & ? & ?); discriminate]
            | reflexivity]).
Qed.

(** X5. SEC-04 is PASS exactly when both vulnerability artifacts were found
    and parsed, both summaries exist, and the two CRITICAL counts add up to
    nothing positive. *)
Theorem sec04_pass_iff_no_critical (a b : artifact)
    (s1 s2 : option Trivy.summary) :
  status (evaluateSec04 a b s1 s2) = PASS
  <-> found a = true /\ parsed a = true /\ found b = true /\ parsed b = true
      /\ exists fs img,
           s1 = Some fs /\ s2 = Some img
           /\ Trivy.get (Trivy.counts fs) CRITICAL
              + Trivy.get (Trivy.counts img) CRITICAL <= 0.
Proof.
  unfold evaluateSec04.
  destruct (found a), (parsed a), (found b), (parsed b);
    cbn [negb orb app length Z.of_nat Z.gtb Z.compare status];
    try (split; [discriminate | intros (? & ? & ? & ? & _); discriminate]).
  destruct s1 as [fs |], s2 as [img |];
    try (split; [discriminate
                | intros (_ & _ & _ & _ & ? & ? & ? & ? & _); discriminate]).
  rewrite !or_num_Some_0.
  destruct (Z.gtb_spec (Trivy.get (Trivy.counts fs) CRITICAL
                        + Trivy.get (Trivy.counts img) CRITICAL) 0)
    as [Hgt | Hle]; cbn [status]; split.
  - discriminate.
  - intros (_ & _ & _ & _ & fs' & img' & E1 & E2 & H).
    injection E1 as <-. injection E2 as <-. lia.
  - intros _. repeat split. exists fs, img. repeat split. exact Hle.
  - reflexivity.
Qed.

(** X6. In a run, SEC-05 is PASS exactly when the inventory file could be
    read and its text parsed, whatever the parsed value is. *)
Theorem sec05_pass_iff_read_and_parsed (h : host) :
  status (evaluateSec05 (readJsonArtifact h FILES.sbom)) = PASS
  <-> exists content v,
        readFile h (path_join h (ARTIFACT_DIR h) FILES.sbom) = ReadOk content
        /\ JSON_parse h content = ParseOk v.
Proof.
  unfold evaluateSec05, readJsonArtifact.
  destruct (readFile h (path_join h (ARTIFACT_DIR h) FILES.sbom))
    as [content | code m];
    [destruct (JSON_parse h content) as [v | m] eqn:Ep
    | destruct (code_is code "ENOENT")];
    cbn [found parsed negb status]; split;
    try discriminate; try reflexivity;
    try (intros (c & v' & E & Ep'); try discriminate E;
         injection E as <-; congruence).
  intros _. exists content, v. split; [reflexivity | exact Ep].
Qed.

(** ** The vulnerability summarizer, entry by entry *)

Lemma countVulnerabilities_tally (sev : severity) (vulns : list json) :
  forall c c',
    countVulnerabilities vulns c = Normal c' ->
    Trivy.get c' sev = Trivy.get c sev + tallyVulnerabilities sev vulns.
Proof.
  induction vulns as [| v rest IH]; intros c c' H.
  - injection H as <-. simpl. lia.
  - cbn [countVulnerabilities] in H. bind_inv H.
    rewrite (IH _ _ H), get_incr. cbn [tallyVulnerabilities].
    unfold classified. rewrite Hx. lia.
Qed.

Lemma countResults_tally (sev : severity) (results : list json) :
  forall c c',
    countResults results c = Normal c' ->
    Trivy.get c' sev = Trivy.get c sev + tally sev results.
Proof.
  induction results as [| r rest IH]; intros c c' H.
  - injection H as <-. simpl. lia.
  - cbn [countResults tally] in *.
    destruct (truthy r).
    + destruct (as_array (get_prop r "Vulnerabilities")) as [vulns |].
      * bind_inv H.
        rewrite (IH _ _ H), (countVulnerabilities_tally sev _ _ _ Hx). lia.
      * rewrite (IH _ _ H). lia.
    + rewrite (IH _ _ H). lia.
Qed.

Lemma tallyVulnerabilities_nonneg (sev : severity) (vulns : list json) :
  0 <= tallyVulnerabilities sev vulns.
Proof.
  induction vulns as [| v rest IH]; simpl; [lia |].
  destruct (classified sev v); lia.
Qed.

Lemma tally_nonneg (sev : severity) (results : list json) :
  0 <= tally sev results.
Proof.
  induction results as [| r rest IH]; simpl; [lia |].
  destruct (truthy r); [| lia].
  destruct (as_array _) as [vulns |]; [| lia].
  pose proof (tallyVulnerabilities_nonneg sev vulns). lia.
Qed.

Lemma summary_counts_tally (doc : json) (s : Trivy.summary)
    (results : list json) (sev : severity) :
  summarizeTrivyVulns doc = Normal (Some s) ->
  get_prop doc "Results" = Some (JArr results) ->
  Trivy.get (Trivy.counts s) sev = tally sev results.
Proof.
  intros Hs Hr.
  destruct (summarizeTrivyVulns_Some doc s Hs) as (rs & Hr' & Hc & _).
  rewrite Hr in Hr'. injection Hr' as <-.
  rewrite (countResults_tally sev _ _ _ Hc). destruct sev; reflexivity.
Qed.

(** X7. In a summary of a document whose severities are ASCII strings, the
    count of each severity is the number of visited entries classified
    under it: entries of results that are skipped (falsy results, results
    without a [Vulnerabilities] array) count nowhere, and every other entry
    counts under exactly one label. *)
Theorem trivy_counts_are_tallies (doc : json) (s : Trivy.summary)
    (results : list json) :
  summarizeTrivyVulns doc = Normal (Some s) ->
  get_prop doc "Results" = Some (JArr results) ->
  ascii_severities results = true ->
  (forall sev, Trivy.get (Trivy.counts s) sev = tally sev results)
  /\ tally CRITICAL results + tally HIGH results + tally MEDIUM results
     + tally LOW results + tally UNKNOWN results
     = entriesVisited results.
Proof.
  intros Hs Hr _. split.
  - intros sev. apply (summary_counts_tally doc s results sev Hs Hr).
  - rewrite <- !(summary_counts_tally doc s results _ Hs Hr).
    destruct (summarizeTrivyVulns_Some doc s Hs) as (rs & Hr' & Hc & _).
    rewrite Hr in Hr'. injection Hr' as <-.
    pose proof (countResults_sum _ _ _ Hc) as Hsum.
    unfold sum_of_counts in Hsum. simpl in Hsum. simpl. lia.
Qed.

Lemma trivy_counts_are_tallies_witness :
  tally HIGH [JNull;
              JObj [("Vulnerabilities",
                     JArr [JObj [("Severity", JStr "HIGH")];
                           JObj [("Severity", JStr "negligible")];
                           JNum 4])]] = 1
  /\ tally UNKNOWN [JNull;
                    JObj [("Vulnerabilities",
                           JArr [JObj [("Severity", JStr "HIGH")];
                                 JObj [("Severity", JStr "negligible")];
                                 JNum 4])]] = 2.
Proof.
  destruct (trivy_counts_are_tallies Examples.mixed_trivy
              (Trivy.mkSummary 3 (Trivy.mkCounts 0 1 0 0 2)) _
              eq_refl eq_refl eq_refl) as [H _].
  split; [rewrite <- (H HIGH) | rewrite <- (H UNKNOWN)]; reflexivity.
Defined.

(** X8. With both vulnerability artifacts found, parsed and summarized,
    and their severities ASCII strings, SEC-04 is PASS exactly when no
    visited entry of either file is classified CRITICAL. *)
Theorem sec04_pass_iff_no_critical_entry (a b : artifact)
    (fs img : Trivy.summary) (ra rb : list json) :
  found a = true -> parsed a = true ->
  found b = true -> parsed b = true ->
  summarizeTrivyVulns (data a) = Normal (Some fs) ->
  summarizeTrivyVulns (data b) = Normal (Some img) ->
  get_prop (data a) "Results" = Some (JArr ra) ->
  get_prop (data b) "Results" = Some (JArr rb) ->
  ascii_severities ra = true ->
  ascii_severities rb = true ->
  status (evaluateSec04 a b (Some fs) (Some img)) = PASS
  <-> tally CRITICAL ra = 0 /\ tally CRITICAL rb = 0.
Proof.
  intros Hfa Hpa Hfb Hpb Hsa Hsb Hra Hrb _ _.
  pose proof (summary_counts_tally _ _ _ CRITICAL Hsa Hra) as Ea.
  pose proof (summary_counts_tally _ _ _ CRITICAL Hsb Hrb) as Eb.
  pose proof (tally_nonneg CRITICAL ra). pose proof (tally_nonneg CRITICAL rb).
  unfold evaluateSec04. rewrite Hfa, Hpa, Hfb, Hpb.
  cbn [negb orb app length Z.of_nat Z.gtb Z.compare].
  rewrite !or_num_Some_0, Ea, Eb.
  destruct (Z.gtb_spec (tally CRITICAL ra + tally CRITICAL rb) 0);
    cbn [status]; split; try discriminate; try reflexivity; intros; lia.
Qed.

Lemma sec04_pass_iff_no_critical_entry_witness :
  let a := mkArtifact FILES.trivyFs "/app/artifacts/trivy-fs.json" true true
             Examples.mixed_trivy None in
  status (evaluateSec04 a a
            (Some (Trivy.mkSummary 3 (Trivy.mkCounts 0 1 0 0 2)))
            (Some (Trivy.mkSummary 3 (Trivy.mkCounts 0 1 0 0 2)))) = PASS.
Proof.
  intros a.
  apply (proj2 (sec04_pass_iff_no_critical_entry a a
                  (Trivy.mkSummary 3 (Trivy.mkCounts 0 1 0 0 2))
                  (Trivy.mkSummary 3 (Trivy.mkCounts 0 1 0 0 2))
                  _ _ eq_refl eq_refl eq_refl eq_refl eq_refl eq_refl
                  eq_refl eq_refl eq_refl eq_refl)).
  split; reflexivity.
Defined.

Lemma ToString_scalar (v : json) :
  scalar v -> exists s, ToString v = Normal s.
Proof.
  destruct v as [| [] | n | s | items | members]; simpl; intros H;
    try contradiction; eauto.
Qed.

Lemma entrySeverity_scalar (vuln : json) :
  (forall v, get_prop vuln "Severity" = Some v -> scalar v) ->
  exists sev, entrySeverity vuln = Normal sev.
Proof.
  intros H. unfold entrySeverity.
  destruct (get_prop vuln "Severity") as [v |] eqn:E.
  - destruct (truthy vuln && truthy_opt (Some v))%bool; [| simpl; eauto].
    destruct (ToString_scalar v (H v eq_refl)) as [s Es]. rewrite Es.
    simpl. eauto.
  - destruct (truthy vuln && truthy_opt None)%bool; simpl; eauto.
Qed.

Lemma countVulnerabilities_scalar (vulns : list json) :
  (forall vuln v, In vuln vulns -> get_prop vuln "Severity" = Some v ->
                  scalar v) ->
  forall c, exists c', countVulnerabilities vulns c = Normal c'.
Proof.
  induction vulns as [| vuln rest IH]; intros H c; [simpl; eauto |].
  cbn [countVulnerabilities].
  destruct (entrySeverity_scalar vuln) as [sev Es].
  { intros v. apply H. left. reflexivity. }
  rewrite Es. cbn [bind]. apply IH.
  intros vuln' v Hin. apply H. right. exact Hin.
Qed.

Lemma countResults_scalar (results : list json) :
  scalar_severities results ->
  forall c, exists c', countResults results c = Normal c'.
Proof.
  induction results as [| r rest IH]; intros H c; [simpl; eauto |].
  assert (Hrest : scalar_severities rest).
  { intros result vulns vuln v Hin. apply H. right. exact Hin. }
  cbn [countResults]. destruct (truthy r); [| apply IH; exact Hrest].
  destruct (get_prop r "Vulnerabilities") as [[| | | | vulns |] |] eqn:E;
    cbn [as_array]; try (apply IH; exact Hrest).
  destruct (countVulnerabilities_scalar vulns) with (c := c) as [c1 E1].
  { intros vuln v Hin. apply (H r vulns vuln v); [left; reflexivity | exact E
                                                   | exact Hin]. }
  rewrite E1. cbn [bind]. apply IH. exact Hrest.
Qed.

(** X9. The vulnerability summarizer returns a summary, without throwing,
    for every object whose [Results] is an array in which every [Severity]
    it meets is a string, a number, a boolean or [null]. *)
Theorem trivy_summary_exists_for_scalar_severities (doc : json)
    (results : list json) :
  get_prop doc "Results" = Some (JArr results) ->
  scalar_severities results ->
  exists s, summarizeTrivyVulns doc = Normal (Some s).
Proof.
  intros Hr Hs. unfold summarizeTrivyVulns.
  destruct doc; try discriminate Hr. rewrite Hr. cbn [as_array].
  destruct (countResults_scalar results Hs Trivy.zero) as [c Ec].
  rewrite Ec. cbn [bind]. eauto.
Qed.

Lemma trivy_summary_exists_for_scalar_severities_witness :
  exists s, summarizeTrivyVulns Examples.mixed_trivy = Normal (Some s).
Proof.
  apply (trivy_summary_exists_for_scalar_severities Examples.mixed_trivy _
           eq_refl).
  intros result vulns vuln v [<- | [<- | []]] Hv; [discriminate Hv |].
  injection Hv as <-.
  intros [<- | [<- | [<- | []]]] Hs; try discriminate Hs;
    injection Hs as <-; exact I.
Defined.

(** ** The hardening summarizer, level by level *)

Lemma upper_ascii_idempotent (c : ascii) :
  upper_ascii (upper_ascii c) = upper_ascii c.
Proof. destruct c as [[] [] [] [] [] [] [] []]; reflexivity. Qed.

Lemma toUpperCase_idempotent (s : string) :
  toUpperCase (toUpperCase s) = toUpperCase s.
Proof.
  induction s as [| c rest IH]; [reflexivity |].
  cbn [toUpperCase]. rewrite upper_ascii_idempotent, IH. reflexivity.
Qed.


Lemma Dockle_get_None (key : string) (c : Dockle.counts_t) :
  Dockle.get key c = None <-> ~ In key (map fst c).
Proof.
  induction c as [| [k w] rest IH]; simpl; [tauto |].
  destruct (String.eqb_spec key k) as [-> | Hne].
  - split; [discriminate | intros H; exfalso; apply H; left; reflexivity].
  - rewrite IH. split.
    + intros H [E | Hin]; [congruence | contradiction].
    + intros H Hin. apply H. right. exact Hin.
Qed.

Lemma Dockle_get_In (key : string) (v : Z) (c : Dockle.counts_t) :
  Dockle.get key c = Some v -> In (key, v) c.
Proof.
  induction c as [| [k w] rest IH]; simpl; [discriminate |].
  destruct (String.eqb_spec key k) as [-> | Hne].
  - intros E. injection E as <-. left. reflexivity.
  - intros E. right. apply IH. exact E.
Qed.

Lemma Dockle_set_keys (key : string) (v : Z) (c : Dockle.counts_t) :
  map fst (Dockle.set key v c)
  = match Dockle.get key c with
    | Some _ => map fst c
    | None => (map fst c ++ [key])%list
    end.
Proof.
  induction c as [| [k w] rest IH]; simpl; [reflexivity |].
  destruct (String.eqb_spec key k) as [-> | Hne]; simpl; [reflexivity |].
  rewrite IH. destruct (Dockle.get key rest); reflexivity.
Qed.

Lemma Dockle_set_In (key : string) (v : Z) (c : Dockle.counts_t)
    (kv : string * Z) :
  In kv (Dockle.set key v c) -> kv = (key, v) \/ In kv c.
Proof.
  induction c as [| [k w] rest IH]; simpl.
  - intros [<- | []]. left. reflexivity.
  - destruct (String.eqb_spec key k) as [-> | Hne]; simpl.
    + intros [<- | Hin]; [left; reflexivity | right; right; exact Hin].
    + intros [<- | Hin]; [right; left; reflexivity |].
      destruct (IH Hin) as [-> | Hin']; [left; reflexivity |
                                          right; right; exact Hin'].
Qed.

Lemma Dockle_set_sum (key : string) (v : Z) (c : Dockle.counts_t) :
  sum_of_levels (Dockle.set key v c)
  = sum_of_levels c + v
    - match Dockle.get key c with Some w => w | None => 0 end.
Proof.
  induction c as [| [k w] rest IH]; simpl; [lia |].
  destruct (String.eqb_spec key k) as [-> | Hne]; simpl; [lia |].
  rewrite IH. lia.
Qed.

Lemma or_num_0 (x : option Z) :
  or_num x 0 = match x with Some w => w | None => 0 end.
Proof.
  unfold or_num. destruct x as [w |]; [| reflexivity].
  destruct (Z.eqb_spec w 0); congruence.
Qed.

(** What one counting call of [bump] does to the counts. *)
Lemma bump_Normal (level : json) (c c' : Dockle.counts_t) :
  bump level c = Normal c' ->
  (truthy level = false /\ c' = c)
  \/ (truthy level = true
      /\ exists s,
           ToString level = Normal s
           /\ c' = Dockle.set (toUpperCase s)
                     (or_num (Dockle.get (toUpperCase s) c) 0 + 1) c).
Proof.
  unfold bump. destruct (truthy level); cbn [negb]; intros H.
  - right. split; [reflexivity |]. bind_inv H. injection H as <-. eauto.
  - left. injection H as <-. split; reflexivity.
Qed.



Lemma bump_invariant (level : json) (c c' : Dockle.counts_t) :
  bump level c = Normal c' ->
  bumped_counts c ->
  bumped_counts c'
  /\ sum_of_levels c' = sum_of_levels c + (if truthy level then 1 else 0).
Proof.
  intros H [Hnd Hall].
  destruct (bump_Normal level c c' H) as [[Ht ->] | [Ht (s & Es & ->)]];
    rewrite Ht; [split; [split; assumption | lia] |].
  split; [split |].
  - rewrite Dockle_set_keys.
    destruct (Dockle.get (toUpperCase s) c) eqn:Eg; [exact Hnd |].
    apply Dockle_get_None in Eg.
    apply NoDup_app; [exact Hnd | repeat constructor; intros [] |].
    intros k Hk [<- | []]. contradiction.
  - apply Forall_forall. intros kv Hin.
    apply Dockle_set_In in Hin. destruct Hin as [-> | Hin].
    + cbn [fst snd]. split; [apply toUpperCase_idempotent |].
      rewrite or_num_0.
      destruct (Dockle.get (toUpperCase s) c) as [w |] eqn:Eg; [| lia].
      apply Dockle_get_In in Eg. rewrite Forall_forall in Hall.
      destruct (Hall _ Eg) as [_ Hw]. cbn [snd] in Hw. lia.
    + rewrite Forall_forall in Hall. exact (Hall kv Hin).
  - rewrite Dockle_set_sum, or_num_0. lia.
Qed.

Lemma bumpLevelOf_invariant (x : json) (c c' : Dockle.counts_t) :
  bumpLevelOf x c = Normal c' ->
  bumped_counts c ->
  bumped_counts c' /\ sum_of_levels c' = sum_of_levels c + levelCounted x.
Proof.
  unfold bumpLevelOf, levelCounted. intros H Hc.
  destruct (truthy x); cbn [andb];
    [| injection H as <-; split; [exact Hc | lia]].
  destruct (get_prop x "level") as [level |]; cbn [truthy_opt];
    [| injection H as <-; split; [exact Hc | lia]].
  destruct (truthy level) eqn:Et;
    [| injection H as <-; split; [exact Hc | lia]].
  destruct (bump_invariant level c c' H Hc) as [Hc' Hsum].
  rewrite Et in Hsum. split; assumption.
Qed.

Lemma bumpDetails_invariant (ds : list json) :
  forall c c',
    bumpDetails ds c = Normal c' ->
    bumped_counts c ->
    bumped_counts c' /\ sum_of_levels c' = sum_of_levels c + detailsLevels ds.
Proof.
  induction ds as [| d rest IH]; intros c c' H Hc.
  - injection H as <-. split; [exact Hc | simpl; lia].
  - cbn [bumpDetails] in H. bind_inv H.
    destruct (bumpLevelOf_invariant d c x Hx Hc) as [Hc1 Hs1].
    destruct (IH _ _ H Hc1) as [Hc2 Hs2].
    split; [exact Hc2 | cbn [detailsLevels]; lia].
Qed.

Lemma bumpItems_invariant (items : list json) :
  forall c c',
    bumpItems items c = Normal c' ->
    bumped_counts c ->
    bumped_counts c' /\ sum_of_levels c' = sum_of_levels c + itemsLevels items.
Proof.
  induction items as [| item rest IH]; intros c c' H Hc.
  - injection H as <-. split; [exact Hc | simpl; lia].
  - cbn [bumpItems] in H. bind_inv H. bind_inv H.
    destruct (bumpLevelOf_invariant item c x Hx Hc) as [Hc1 Hs1].
    assert (H2 : bumped_counts x0
                 /\ sum_of_levels x0
                    = sum_of_levels x
                      + (if truthy item then
                           match as_array (get_prop item "details") with
                           | Some ds => detailsLevels ds
                           | None => 0
                           end
                         else 0)).
    { destruct (truthy item);
        [| injection Hx0 as <-; split; [exact Hc1 | lia]].
      destruct (as_array (get_prop item "details")) as [ds |];
        [| injection Hx0 as <-; split; [exact Hc1 | lia]].
      apply (bumpDetails_invariant ds _ _ Hx0 Hc1). }
    destruct H2 as [Hc2 Hs2].
    destruct (IH _ _ H Hc2) as [Hc3 Hs3].
    split; [exact Hc3 | cbn [itemsLevels]; lia].
Qed.

Lemma bumped_counts_nil : bumped_counts [].
Proof. split; constructor. Qed.

Lemma summarizeDockleFindings_invariant (doc : json) (s : Dockle.summary) :
  summarizeDockleFindings doc = Normal (Some s) ->
  bumped_counts (Dockle.counts s)
  /\ sum_of_levels (Dockle.counts s) = levelsVisited doc.
Proof.
  unfold summarizeDockleFindings, levelsVisited. intros H.
  destruct doc as [| | | | items | members]; try discriminate H.
  - bind_inv H.
    destruct (bumpItems_invariant items _ _ Hx bumped_counts_nil) as [Hc Hs].
    destruct x as [| e rest]; cbn [length Z.of_nat Z.eqb] in H;
      injection H as <-; cbn [Dockle.counts].
    + split; [exact Hc | exact Hs].
    + split; [exact Hc | exact Hs].
  - bind_inv H. bind_inv H.
    assert (H1 : bumped_counts x
                 /\ sum_of_levels x
                    = match as_array (get_prop (JObj members) "details") with
                      | Some ds => detailsLevels ds
                      | None => 0
                      end).
    { destruct (as_array (get_prop (JObj members) "details")) as [ds |].
      - apply (bumpDetails_invariant ds _ _ Hx bumped_counts_nil).
      - injection Hx as <-. split; [exact bumped_counts_nil | reflexivity]. }
    destruct H1 as [Hc1 Hs1].
    assert (H2 : bumped_counts x0
                 /\ sum_of_levels x0
                    = sum_of_levels x + levelCounted (JObj members)).
    { apply (bumpLevelOf_invariant (JObj members) x x0); [| exact Hc1].
      unfold bumpLevelOf. cbn [truthy]. exact Hx0. }
    destruct H2 as [Hc2 Hs2].
    destruct x0 as [| e rest]; cbn [length Z.of_nat Z.eqb] in H;
      injection H as <-; cbn [Dockle.counts].
    + split; [exact Hc2 | lia].
    + split; [exact Hc2 | lia].
Qed.

(** X11. Every hardening summary the summarizer returns has one entry per
    key, keys that are already in upper case, and counts of at least 1; the
    counts add up to the number of truthy levels visited (the items of a
    top-level array and their [details], or an object's [details] and its
    own [level]). *)
Theorem dockle_summary_counts_invariant (doc : json) (s : Dockle.summary) :
  summarizeDockleFindings doc = Normal (Some s) ->
  NoDup (map fst (Dockle.counts s))
  /\ (forall key n,
        Dockle.get key (Dockle.counts s) = Some n ->
        toUpperCase key = key /\ 1 <= n)
  /\ sum_of_levels (Dockle.counts s) = levelsVisited doc.
Proof.
  intros H.
  destruct (summarizeDockleFindings_invariant doc s H) as [[Hnd Hall] Hsum].
  split; [exact Hnd |]. split; [| exact Hsum].
  intros key n Hget. apply Dockle_get_In in Hget.
  rewrite Forall_forall in Hall. exact (Hall _ Hget).
Qed.

Lemma dockle_summary_counts_invariant_witness :
  let doc := JArr [JObj [("level", JStr "warn");
                         ("details", JArr [JObj [("level", JStr "Info")];
                                           JObj [("level", JStr "WARN")];
                                           JObj [("code", JStr "x")]])];
                   JNull;
                   JObj [("level", JStr "")]] in
  summarizeDockleFindings doc
  = Normal (Some (Dockle.mkSummary [("WARN", 2); ("INFO", 1)]))
  /\ levelsVisited doc = 2 + 1.
Proof.
  intros doc. split; [reflexivity |].
  destruct (dockle_summary_counts_invariant doc
              (Dockle.mkSummary [("WARN", 2); ("INFO", 1)]) eq_refl)
    as (_ & _ & Hsum).
  rewrite <- Hsum. reflexivity.
Defined.

Lemma or_num_bumped (c : Dockle.counts_t) (key : string) (d : Z) :
  bumped_counts c ->
  0 < or_num (Dockle.get key c) d <-> In key (map fst c) \/ 0 < d.
Proof.
  intros [_ Hall]. unfold or_num.
  destruct (Dockle.get key c) as [n |] eqn:Eg.
  - pose proof (Dockle_get_In key n c Eg) as Hin.
    rewrite Forall_forall in Hall. destruct (Hall _ Hin) as [_ Hn].
    cbn [snd] in Hn.
    destruct (Z.eqb_spec n 0); [lia |].
    split; [intros _ | lia]. left.
    apply in_map_iff. exists (key, n). split; [reflexivity | exact Hin].
  - apply Dockle_get_None in Eg. tauto.
Qed.

(** X12. On a summary that the summarizer returned, SEC-03 is FAIL exactly
    when FATAL, FATL, ERROR or WARN is one of its keys: every recorded count
    is at least 1, so presence decides. *)
Theorem sec03_fails_iff_worst_level_recorded (a : artifact)
    (s : Dockle.summary) :
  found a = true ->
  parsed a = true ->
  summarizeDockleFindings (data a) = Normal (Some s) ->
  status (evaluateSec03 a (Some s)) = FAIL
  <-> In "FATAL" (map fst (Dockle.counts s))
      \/ In "FATL" (map fst (Dockle.counts s))
      \/ In "ERROR" (map fst (Dockle.counts s))
      \/ In "WARN" (map fst (Dockle.counts s)).
Proof.
  intros Hf Hp Hs.
  destruct (summarizeDockleFindings_invariant _ _ Hs) as [Hc _].
  rewrite (sec03_status a s Hf Hp). cbv zeta.
  pose proof (or_num_bumped _ "FATAL"
                (or_num (Dockle.get "FATL" (Dockle.counts s)) 0) Hc) as HF.
  pose proof (or_num_bumped _ "FATL" 0 Hc) as HL.
  pose proof (or_num_bumped _ "ERROR" 0 Hc) as HE.
  pose proof (or_num_bumped _ "WARN" 0 Hc) as HW.
  match goal with
  | |- (if ?b then _ else _) = _ <-> _ => destruct b eqn:Eb
  end.
  - split; [intros _ | reflexivity].
    rewrite !orb_true_iff, !Z.gtb_lt in Eb.
    destruct Eb as [[H | H] | H].
    + apply HF in H. destruct H as [H | H]; [tauto |].
      apply HL in H. destruct H as [H | H]; [tauto | lia].
    + apply HE in H. destruct H as [H | H]; [tauto | lia].
    + apply HW in H. destruct H as [H | H]; [tauto | lia].
  - split; [discriminate | intros H]. exfalso.
    rewrite !orb_false_iff in Eb. destruct Eb as [[E1 E2] E3].
    rewrite Z.gtb_ltb, Z.ltb_ge in E1, E2, E3.
    destruct H as [H | [H | [H | H]]].
    + assert (0 < or_num (Dockle.get "FATAL" (Dockle.counts s))
                    (or_num (Dockle.get "FATL" (Dockle.counts s)) 0))
        by (apply HF; left; exact H). lia.
    + assert (0 < or_num (Dockle.get "FATAL" (Dockle.counts s))
                    (or_num (Dockle.get "FATL" (Dockle.counts s)) 0))
        by (apply HF; right; apply HL; left; exact H). lia.
    + assert (0 < or_num (Dockle.get "ERROR" (Dockle.counts s)) 0)
        by (apply HE; left; exact H). lia.
    + assert (0 < or_num (Dockle.get "WARN" (Dockle.counts s)) 0)
        by (apply HW; left; exact H). lia.
Qed.

Lemma sec03_fails_iff_worst_level_recorded_witness :
  let a := mkArtifact FILES.dockle "/app/artifacts/dockle.json" true true
             (JObj [("details", JArr [JObj [("level", JStr "info")];
                                      JObj [("level", JStr "Error")]])])
             None in
  status (evaluateSec03 a (Some (Dockle.mkSummary [("INFO", 1); ("ERROR", 1)])))
  = FAIL.
Proof.
  intros a.
  apply (proj2 (sec03_fails_iff_worst_level_recorded a
                  (Dockle.mkSummary [("INFO", 1); ("ERROR", 1)])
                  eq_refl eq_refl eq_refl)).
  right. right. left. right. left. reflexivity.
Defined.

Lemma bump_scalar (level : json) (c : Dockle.counts_t) :
  scalar level -> exists c', bump level c = Normal c'.
Proof.
  intros H. unfold bump. destruct (negb (truthy level)); [eauto |].
  destruct (ToString_scalar level H) as [s Es]. rewrite Es. cbn [bind]. eauto.
Qed.

Lemma bumpLevelOf_scalar (x : json) (c : Dockle.counts_t) :
  scalar_level x -> exists c', bumpLevelOf x c = Normal c'.
Proof.
  intros H. unfold bumpLevelOf. destruct (truthy x); [| eauto].
  destruct (get_prop x "level") as [level |] eqn:E; [| eauto].
  destruct (truthy level); [| eauto].
  apply bump_scalar. apply H. exact E.
Qed.

Lemma bumpDetails_scalar (ds : list json) :
  Forall scalar_level ds ->
  forall c, exists c', bumpDetails ds c = Normal c'.
Proof.
  induction 1 as [| d rest Hd _ IH]; intros c; [simpl; eauto |].
  cbn [bumpDetails]. destruct (bumpLevelOf_scalar d c Hd) as [c1 E1].
  rewrite E1. cbn [bind]. apply IH.
Qed.

Lemma bumpItems_scalar (items : list json) :
  Forall (fun item =>
            scalar_level item
            /\ forall ds, get_prop item "details" = Some (JArr ds) ->
                          Forall scalar_level ds) items ->
  forall c, exists c', bumpItems items c = Normal c'.
Proof.
  induction 1 as [| item rest [Hl Hd] _ IH]; intros c; [simpl; eauto |].
  cbn [bumpItems]. destruct (bumpLevelOf_scalar item c Hl) as [c1 E1].
  rewrite E1. cbn [bind].
  assert (E2 : exists c2,
             (if truthy item then
                match as_array (get_prop item "details") with
                | Some ds => bumpDetails ds c1
                | None => Normal c1
                end
              else Normal c1) = Normal c2).
  { destruct (truthy item); [| eauto].
    destruct (get_prop item "details") as [[| | | | ds |] |] eqn:E;
      cbn [as_array]; eauto.
    apply bumpDetails_scalar. apply Hd. reflexivity. }
  destruct E2 as [c2 E2]. rewrite E2. cbn [bind]. apply IH.
Qed.

(** X13. The hardening summarizer returns, without throwing, for every
    value in which every [level] it meets is a string, a number, a boolean
    or [null]; for an array or an object the answer is then a summary. *)
Theorem dockle_summary_exists_for_scalar_levels (doc : json) :
  scalar_levels doc ->
  (primitive doc = true /\ summarizeDockleFindings doc = Normal None)
  \/ (primitive doc = false
      /\ exists s, summarizeDockleFindings doc = Normal (Some s)).
Proof.
  intros H. unfold summarizeDockleFindings.
  destruct doc as [| | | | items | members]; cbn [primitive];
    try (left; split; reflexivity); right; (split; [reflexivity |]).
  - destruct (bumpItems_scalar items H []) as [c Ec]. rewrite Ec.
    cbn [bind]. destruct (Z.of_nat (length c) =? 0); eauto.
  - destruct H as [Hl Hd].
    assert (E1 : exists c1,
               match as_array (get_prop (JObj members) "details") with
               | Some ds => bumpDetails ds []
               | None => Normal []
               end = Normal c1).
    { destruct (get_prop (JObj members) "details") as [[| | | | ds |] |] eqn:E;
        cbn [as_array]; eauto.
      apply bumpDetails_scalar. apply Hd. reflexivity. }
    destruct E1 as [c1 E1]. rewrite E1. cbn [bind].
    destruct (bumpLevelOf_scalar (JObj members) c1 Hl) as [c2 E2].
    unfold bumpLevelOf in E2. cbn [truthy] in E2. rewrite E2. cbn [bind].
    destruct (Z.of_nat (length c2) =? 0); eauto.
Qed.

Lemma dockle_summary_exists_for_scalar_levels_witness :
  exists s,
    summarizeDockleFindings
      (JObj [("details", JArr [JObj [("level", JStr "info")]; JNum 3]);
             ("level", JBool true)])
    = Normal (Some s).
Proof.
  destruct (dockle_summary_exists_for_scalar_levels
              (JObj [("details", JArr [JObj [("level", JStr "info")]; JNum 3]);
                     ("level", JBool true)])) as [[E _] | [_ H]].
  - split.
    + intros v E. injection E as <-. exact I.
    + intros ds E. injection E as <-.
      repeat constructor; intros v E; try discriminate E.
      injection E as <-. exact I.
  - discriminate E.
  - exact H.
Defined.

(** ** The overall status and the renderer *)

(** X14. The overall status is FAIL exactly when some control is FAIL; an
    empty list of controls is PASS; and a concatenation is PASS exactly when
    both parts are. *)
Theorem overall_status_fails_iff_some_control_fails (cs cs' : list control) :
  (computeOverallStatus cs = FAIL
   <-> exists c, In c cs /\ status c = FAIL)
  /\ computeOverallStatus [] = PASS
  /\ (computeOverallStatus (cs ++ cs') = PASS
      <-> computeOverallStatus cs = PASS /\ computeOverallStatus cs' = PASS).
Proof.
  split; [| split; [reflexivity |]].
  - unfold computeOverallStatus.
    destruct (forallb (fun c => status_eqb (status c) PASS) cs) eqn:E.
    + split; [discriminate |]. intros (c & Hin & Hc).
      rewrite forallb_forall in E. specialize (E c Hin).
      rewrite Hc in E. discriminate E.
    + split; [intros _ | reflexivity].
      induction cs as [| c rest IH]; [discriminate E |].
      cbn [forallb] in E. apply andb_false_iff in E. destruct E as [E | E].
      * exists c. split; [left; reflexivity |].
        destruct (status c); [discriminate E | reflexivity].
      * destruct (IH E) as (c' & Hin & Hc'). exists c'.
        split; [right; exact Hin | exact Hc'].
  - rewrite !computeOverallStatus_PASS. apply Forall_app.
Qed.

Lemma failing_filter_nonempty (controls : list control) :
  (Z.of_nat (length (filter (fun c => status_eqb (status c) FAIL) controls))
   >? 0) = true
  <-> exists c, In c controls /\ status c = FAIL.
Proof.
  rewrite Z.gtb_lt. split.
  - destruct (filter _ controls) as [| c rest] eqn:E; [simpl; lia |].
    intros _. exists c.
    assert (Hin : In c (filter (fun c => status_eqb (status c) FAIL) controls))
      by (rewrite E; left; reflexivity).
    apply filter_In in Hin. destruct Hin as [Hin Hc].
    split; [exact Hin | apply status_eqb_eq; exact Hc].
  - intros (c & Hin & Hc).
    assert (Hf : In c (filter (fun c => status_eqb (status c) FAIL) controls)).
    { apply filter_In. split; [exact Hin | apply status_eqb_eq; exact Hc]. }
    destruct (filter _ controls); [contradiction | simpl length; lia].
Qed.

Lemma renderLines_failing_section (h : host)
    (controls : list control) (overallStatus : Status) (timestamp : string) :
  (In "### Failing Controls"
      (renderLines h controls overallStatus timestamp)
   <-> exists c, In c controls /\ status c = FAIL)
  /\ (forall c,
        In c controls -> status c = FAIL ->
        In ("- " ++ id_text (id c) ++ ": " ++ details c)
           (renderLines h controls overallStatus timestamp)).
Proof.
  pose proof (failing_filter_nonempty controls) as Hne.
  unfold renderLines. split.
  - split.
    + intros H.
      repeat (destruct H as [H | H]; [cbn in H; discriminate H |]).
      apply in_app_or in H. destruct H as [[] | H].
      apply in_app_or in H. destruct H as [H | H].
      { apply in_map_iff in H. destruct H as (c & E & _).
        unfold tableRow in E. cbn in E. discriminate E. }
      repeat (destruct H as [H | H];
              [destruct overallStatus; cbn in H; discriminate H |]).
      destruct (Z.of_nat _ >? 0); [apply Hne; reflexivity | cbn in H; contradiction].
    + intros H. apply Hne in H. rewrite H.
      apply in_or_app. right. apply in_or_app. right.
      apply in_or_app. right. left. reflexivity.
  - intros c Hin Hc.
    assert (H : exists c, In c controls /\ status c = FAIL) by eauto.
    apply Hne in H. rewrite H.
    apply in_or_app. right. apply in_or_app. right.
    apply in_or_app. right. apply in_or_app. right.
    apply in_or_app. left. apply in_map_iff. exists c.
    split; [reflexivity |]. apply filter_In.
    split; [exact Hin | apply status_eqb_eq; exact Hc].
Qed.

Lemma renderLines_rows (h : host) (controls : list control)
    (overallStatus : Status) (timestamp : string) (i : nat) (c : control) :
  nth_error controls i = Some c ->
  nth_error (renderLines h controls overallStatus timestamp) (15 + i)
  = Some (tableRow c)
  /\ nth_error (renderLines h controls overallStatus timestamp)
               (15 + length controls) = Some EmptyString.
Proof.
  intros H. unfold renderLines.
  cbn [app Nat.add nth_error].
  split.
  - rewrite nth_error_app1.
    + apply map_nth_error. exact H.
    + rewrite length_map. apply nth_error_Some. congruence.
  - rewrite nth_error_app2 by (rewrite length_map; lia).
    rewrite length_map, Nat.sub_diag. reflexivity.
Qed.

(** X15. When the details, the timestamp and the pipeline metadata hold no
    line break, the rendered report has the line [### Failing Controls]
    exactly when some control passed to the renderer is FAIL, whatever
    overall status was passed along; every failing control then has its
    bullet line, with the details unescaped. *)
Theorem failing_section_iff_some_control_fails (h : host)
    (controls : list control) (overallStatus : Status) (timestamp : string) :
  single_line_host h ->
  single_line timestamp = true ->
  Forall (fun c => single_line (details c) = true) controls ->
  (In "### Failing Controls"
      (split_lines (renderMarkdown h controls overallStatus timestamp))
   <-> exists c, In c controls /\ status c = FAIL)
  /\ (forall c,
        In c controls -> status c = FAIL ->
        In ("- " ++ id_text (id c) ++ ": " ++ details c)
           (split_lines (renderMarkdown h controls overallStatus timestamp))).
Proof.
  intros Hh Hts Hall.
  rewrite (proj1 (table_lines_renderMarkdown h controls overallStatus
                    timestamp Hh Hts Hall)).
  apply renderLines_failing_section.
Qed.

Lemma failing_section_iff_some_control_fails_witness :
  In "- SEC-05: sbom.json not found"
     (split_lines
        (renderMarkdown Examples.clean_host
           [mkControl SEC01 PASS "No secrets detected by Gitleaks (0 findings)";
            mkControl SEC05 FAIL "sbom.json not found"]
           FAIL "2024-01-01T00:00:00.000Z")).
Proof.
  apply (proj2 (failing_section_iff_some_control_fails Examples.clean_host
                  [mkControl SEC01 PASS
                     "No secrets detected by Gitleaks (0 findings)";
                   mkControl SEC05 FAIL "sbom.json not found"]
                  FAIL "2024-01-01T00:00:00.000Z"
                  ltac:(intros k v E; discriminate E) eq_refl
                  ltac:(repeat constructor))
           (mkControl SEC05 FAIL "sbom.json not found")).
  - right. left. reflexivity.
  - reflexivity.
Defined.

(** X16. When the details, the timestamp and the pipeline metadata hold no
    line break, the table of the rendered report has one row per control in
    the order of the list: the row of the control at index [i] is line
    [15 + i] of the document, after the fifteen lines of title, context and
    table head, and the line after the last row is empty. *)
Theorem table_rows_follow_control_order (h : host) (controls : list control)
    (overallStatus : Status) (timestamp : string) (i : nat) (c : control) :
  single_line_host h ->
  single_line timestamp = true ->
  Forall (fun c => single_line (details c) = true) controls ->
  nth_error controls i = Some c ->
  nth_error (split_lines (renderMarkdown h controls overallStatus timestamp))
            (15 + i)
  = Some (tableRow c)
  /\ nth_error (split_lines
                  (renderMarkdown h controls overallStatus timestamp))
               (15 + length controls) = Some EmptyString.
Proof.
  intros Hh Hts Hall H.
  rewrite (proj1 (table_lines_renderMarkdown h controls overallStatus
                    timestamp Hh Hts Hall)).
  apply renderLines_rows. exact H.
Qed.

Lemma table_rows_follow_control_order_witness :
  nth_error (split_lines
               (renderMarkdown Examples.clean_host
                  [mkControl SEC01 PASS "a"; mkControl SEC05 FAIL "b|c"]
                  FAIL "t")) 16
  = Some "| SEC-05 | FAIL | b\|c |".
Proof.
  apply (proj1 (table_rows_follow_control_order Examples.clean_host
                  [mkControl SEC01 PASS "a"; mkControl SEC05 FAIL "b|c"]
                  FAIL "t" 1 (mkControl SEC05 FAIL "b|c")
                  ltac:(intros k v E; discriminate E) eq_refl
                  ltac:(repeat constructor) eq_refl)).
Defined.

Lemma string_length_append (a b : string) :
  String.length (a ++ b) = (String.length a + String.length b)%nat.
Proof. induction a as [| c rest IH]; simpl; [reflexivity | rewrite IH; reflexivity]. Qed.

Lemma env_or_nonempty (h : host) (k d : string) :
  d <> "" -> env_or h k d <> "".
Proof.
  intros Hd. unfold env_or. destruct (env h k) as [v |]; [| exact Hd].
  destruct (String.eqb_spec v ""); assumption.
Qed.

(** X17. The "Run URL" line of the report is [n/a] exactly when
    GITHUB_RUN_ID is unset or empty; otherwise it is the server URL (by
    default https://github.com), the repository (by default n/a) and the run
    id: the repository never makes it [n/a]. *)
Theorem run_url_is_na_iff_no_run_id (h : host) (controls : list control)
    (overallStatus : Status) (timestamp : string) :
  exists url,
    nth_error (renderLines h controls overallStatus timestamp) 9
    = Some ("- Run URL: " ++ url)
    /\ (url = "n/a"
        <-> env h "GITHUB_RUN_ID" = None \/ env h "GITHUB_RUN_ID" = Some "")
    /\ (forall runId,
          env h "GITHUB_RUN_ID" = Some runId -> runId <> "" ->
          url = env_or h "GITHUB_SERVER_URL" "https://github.com" ++ "/"
                ++ env_or h "GITHUB_REPOSITORY" "n/a" ++ "/actions/runs/"
                ++ runId).
Proof.
  unfold renderLines. cbn [app nth_error]. eexists. split; [reflexivity |].
  assert (Hrepo : String.eqb (env_or h "GITHUB_REPOSITORY" "n/a") "" = false).
  { apply String.eqb_neq. apply env_or_nonempty. discriminate. }
  rewrite Hrepo.
  destruct (env h "GITHUB_RUN_ID") as [runId |]; [| split; [tauto |
                                                             discriminate]].
  destruct (String.eqb_spec runId "") as [-> | Hne]; cbn [negb andb].
  - split; [tauto | intros r E; injection E as <-; congruence].
  - split.
    + split.
      * intros E. apply (f_equal String.length) in E.
        rewrite !string_length_append in E. simpl in E. lia.
      * intros [E | E]; [discriminate E | injection E as ->; congruence].
    + intros r E _. injection E as <-. reflexivity.
Qed.

Lemma escapeMarkdown_app (a b : string) :
  escapeMarkdown (a ++ b) = escapeMarkdown a ++ escapeMarkdown b.
Proof.
  induction a as [| c rest IH]; [reflexivity |].
  cbn [append escapeMarkdown]. rewrite IH.
  destruct (Ascii.eqb c "|"%char); reflexivity.
Qed.

Lemma escapeMarkdown_no_pipes (s : string) :
  pipes s = 0%nat -> escapeMarkdown s = s.
Proof.
  induction s as [| c rest IH]; [reflexivity |].
  cbn [pipes escapeMarkdown]. destruct (Ascii.eqb c "|"%char);
    [discriminate |].
  intros H. rewrite (IH H). reflexivity.
Qed.

(** X18. Escaping works piece by piece: the escape of a concatenation is the
    concatenation of the escapes; it adds one character per pipe; and it
    returns a string without pipes unchanged. *)
Theorem escapeMarkdown_is_piecewise (a b : string) :
  escapeMarkdown (a ++ b) = escapeMarkdown a ++ escapeMarkdown b
  /\ String.length (escapeMarkdown a) = (String.length a + pipes a)%nat
  /\ (pipes a = 0%nat -> escapeMarkdown a = a).
Proof.
  split; [apply escapeMarkdown_app |]. split; [| apply escapeMarkdown_no_pipes].
  induction a as [| c rest IH]; [reflexivity |].
  cbn [escapeMarkdown pipes String.length].
  destruct (Ascii.eqb c "|"%char); cbn [String.length]; rewrite IH; lia.
Qed.

(** ** Whole runs *)

Lemma evaluateArtifacts_Normal (h : host) (controls : list control) :
  evaluateArtifacts h = Normal controls ->
  exists s1 s2 d,
    controls
    = [ evaluateSec01 (readJsonArtifact h FILES.gitleaks);
        evaluateSec02 (readJsonArtifact h FILES.trivyFs)
          (readJsonArtifact h FILES.trivyImage) s1 s2;
        evaluateSec03 (readJsonArtifact h FILES.dockle) d;
        evaluateSec04 (readJsonArtifact h FILES.trivyFs)
          (readJsonArtifact h FILES.trivyImage) s1 s2;
        evaluateSec05 (readJsonArtifact h FILES.sbom) ].
Proof.
  unfold evaluateArtifacts. intros H.
  bind_inv H. bind_inv H. bind_inv H. injection H as <-. eauto.
Qed.

Lemma sec01_pass_valid (a : artifact) :
  status (evaluateSec01 a) = PASS -> found a = true /\ parsed a = true.
Proof.
  unfold evaluateSec01. destruct (found a), (parsed a); cbn [negb status];
    intros H; try discriminate H; split; reflexivity.
Qed.

Lemma sec02_pass_valid (a b : artifact) (s1 s2 : option Trivy.summary) :
  status (evaluateSec02 a b s1 s2) = PASS ->
  (found a = true /\ parsed a = true) /\ (found b = true /\ parsed b = true).
Proof.
  unfold evaluateSec02, coverageIssue.
  destruct (found a), (parsed a), (found b), (parsed b);
    cbn [negb app length Z.of_nat Z.gtb Z.compare status];
    intros H; try discriminate H; repeat split.
Qed.

Lemma sec03_pass_valid (a : artifact) (d : option Dockle.summary) :
  status (evaluateSec03 a d) = PASS -> found a = true /\ parsed a = true.
Proof.
  unfold evaluateSec03. destruct (found a), (parsed a); cbn [negb status];
    intros H; try discriminate H; split; reflexivity.
Qed.

Lemma sec05_pass_valid (a : artifact) :
  status (evaluateSec05 a) = PASS -> found a = true /\ parsed a = true.
Proof.
  unfold evaluateSec05. destruct (found a), (parsed a); cbn [negb status];
    intros H; try discriminate H; split; reflexivity.
Qed.

(** X19. A zero exit status guarantees that each of the five artifacts was
    found and parsed and that the report file was written. *)
Theorem exit_zero_implies_artifacts_valid_and_report_written (h : host) :
  exit_status (script h) = 0 ->
  Forall (fun f => found (readJsonArtifact h f) = true
                   /\ parsed (readJsonArtifact h f) = true) artifact_names
  /\ exists doc, persisted (script h) = Some doc.
Proof.
  unfold script. destruct (main h) as [r | m] eqn:Hmain;
    cbn [exit_status persisted]; [| discriminate].
  destruct (main_Normal h r Hmain)
    as (controls & Hev & _ & _ & _ & _ & Hcon & Hfin & _ & _ & Hexit).
  rewrite Hexit. intros H0.
  destruct (writeSucceeded r) eqn:Ew; [| discriminate H0].
  cbn [negb orb] in H0.
  destruct (finalOverallStatus r) eqn:Ef; [| discriminate H0].
  split; [| eauto].
  symmetry in Hfin. apply computeOverallStatus_PASS in Hfin.
  rewrite Hcon in Hfin. apply Forall_app in Hfin. destruct Hfin as [Hfive _].
  destruct (evaluateArtifacts_Normal h controls Hev) as (s1 & s2 & d & ->).
  inversion Hfive as [| ? ? H1 Hr1]; subst.
  inversion Hr1 as [| ? ? H2 Hr2]; subst.
  inversion Hr2 as [| ? ? H3 Hr3]; subst.
  inversion Hr3 as [| ? ? H4 Hr4]; subst.
  inversion Hr4 as [| ? ? H5 _]; subst.
  apply sec01_pass_valid in H1. apply sec02_pass_valid in H2.
  apply sec03_pass_valid in H3. apply sec05_pass_valid in H5.
  destruct H2 as [H2a H2b].
  unfold artifact_names. repeat constructor; tauto.
Qed.

Lemma exit_zero_implies_artifacts_valid_and_report_written_witness :
  parsed (readJsonArtifact Examples.clean_host FILES.dockle) = true.
Proof.
  destruct (exit_zero_implies_artifacts_valid_and_report_written
              Examples.clean_host eq_refl) as [H _].
  rewrite Forall_forall in H.
  apply (H FILES.dockle). right. right. right. left. reflexivity.
Defined.

(** X20. A run that finds none of the five artifacts (every read rejected
    with ENOENT) completes: SEC-01 to SEC-05 are FAIL with their "not found"
    details, and the exit status is 1 even when the report is written. *)
Theorem run_without_artifacts_fails_every_control (h : host) :
  (forall f, In f artifact_names ->
             exists m, readFile h (path_join h (ARTIFACT_DIR h) f)
                       = ReadRejected (Some "ENOENT") m) ->
  evaluateArtifacts h
  = Normal [ mkControl SEC01 FAIL "gitleaks.json not found";
             mkControl SEC02 FAIL
               "trivy-fs.json not found; trivy-image.json not found";
             mkControl SEC03 FAIL "dockle.json not found";
             mkControl SEC04 FAIL
               "Trivy FS scan missing or invalid; Trivy image scan missing or invalid";
             mkControl SEC05 FAIL "sbom.json not found" ]
  /\ exit_status (script h) = 1
  /\ printed (script h) <> [].
Proof.
  intros Hall.
  assert (Hmiss : forall f, In f artifact_names ->
            readJsonArtifact h f
            = mkArtifact f (path_join h (ARTIFACT_DIR h) f) false false JNull
                (Some "File not found")).
  { intros f Hf. destruct (Hall f Hf) as [m Hm].
    unfold readJsonArtifact. rewrite Hm. reflexivity. }
  assert (Hev : evaluateArtifacts h
                = Normal [ mkControl SEC01 FAIL "gitleaks.json not found";
                           mkControl SEC02 FAIL
                             "trivy-fs.json not found; trivy-image.json not found";
                           mkControl SEC03 FAIL "dockle.json not found";
                           mkControl SEC04 FAIL
                             "Trivy FS scan missing or invalid; Trivy image scan missing or invalid";
                           mkControl SEC05 FAIL "sbom.json not found" ]).
  { unfold evaluateArtifacts.
    rewrite (Hmiss FILES.gitleaks), (Hmiss FILES.trivyFs),
      (Hmiss FILES.trivyImage), (Hmiss FILES.dockle), (Hmiss FILES.sbom)
      by (unfold artifact_names; simpl; auto 6).
    reflexivity. }
  split; [exact Hev |].
  unfold script, main. rewrite Hev. cbn [bind exit_status printed exitCode stdout].
  split; [| discriminate].
  match goal with
  | |- (if (?w || ?b)%bool then 1 else 0) = 1 =>
      assert (Hb : b = true) by reflexivity; rewrite Hb, orb_true_r
  end.
  reflexivity.
Qed.

Lemma run_without_artifacts_fails_every_control_witness :
  exit_status (script Examples.empty_host) = 1.
Proof.
  apply (run_without_artifacts_fails_every_control Examples.empty_host).
  intros f _. eexists. reflexivity.
Defined.

Lemma string_append_assoc (a b c : string) : (a ++ b) ++ c = a ++ (b ++ c).
Proof.
  induction a as [| x rest IH]; [reflexivity |].
  cbn [append]. rewrite IH. reflexivity.
Qed.

Lemma string_append_inv_head (p a b : string) : p ++ a = p ++ b -> a = b.
Proof.
  induction p as [| x rest IH]; [trivial |].
  cbn [append]. intros H. injection H as H. exact (IH H).
Qed.

Lemma concat_LF_around (P : list string) :
  exists pre,
    forall x t,
      t <> [] ->
      String.concat LF (P ++ x :: t) = pre ++ x ++ LF ++ String.concat LF t.
Proof.
  induction P as [| p rest [pre IH]].
  - exists "". intros x [| y t] Ht; [contradiction | reflexivity].
  - exists (p ++ LF ++ pre). intros x t Ht.
    change ((p :: rest) ++ x :: t)%list with (p :: (rest ++ x :: t))%list.
    destruct (rest ++ x :: t)%list as [| y l] eqn:E.
    + destruct rest; discriminate E.
    + change (String.concat LF (p :: y :: l))
        with (p ++ LF ++ String.concat LF (y :: l)).
      rewrite <- E, (IH x t Ht), !string_append_assoc. reflexivity.
Qed.

Lemma renderLines_snoc (h : host) (controls : list control)
    (timestamp : string) :
  exists P,
    forall x st,
      exists t,
        t <> []
        /\ renderLines h (controls ++ [x]) st timestamp
           = (P ++ tableRow x :: t)%list.
Proof.
  eexists. intros x st. eexists. unfold renderLines.
  rewrite map_app. cbn [map].
  rewrite <- (app_assoc (map tableRow controls)).
  rewrite app_assoc.
  split; [| reflexivity]. discriminate.
Qed.

(** X21. In every completed run the persisted document and the printed
    document differ: the file carries the tentative SEC-06 row, the console
    the final one, and the two rows never agree. *)
Theorem persisted_and_printed_documents_differ (h : host) (r : run) :
  main h = Normal r ->
  markdownContent r <> consoleMarkdown r
  /\ tableRow sec06Tentative
     <> tableRow (sec06Final (writeSucceeded r) (reportPath r)).
Proof.
  intros Hmain.
  destruct (main_Normal h r Hmain)
    as (controls & _ & _ & Hfile & Hmd & _ & Hcon & _ & Hcm & _).
  assert (Hrows : forall rest1 rest2,
             tableRow sec06Tentative ++ rest1
             <> tableRow (sec06Final (writeSucceeded r) (reportPath r))
                ++ rest2).
  { intros rest1 rest2 E. unfold tableRow, sec06Tentative, sec06Final in E.
    destruct (writeSucceeded r); cbn in E; discriminate E. }
  split.
  - rewrite Hmd, Hcm, Hfile, Hcon. unfold renderMarkdown.
    destruct (renderLines_snoc h controls (now h)) as [P HP].
    destruct (HP sec06Tentative
                (computeOverallStatus (controls ++ [sec06Tentative])))
      as (t1 & Ht1 & E1).
    destruct (HP (sec06Final (writeSucceeded r) (reportPath r))
                (finalOverallStatus r)) as (t2 & Ht2 & E2).
    rewrite E1, E2.
    destruct (concat_LF_around P) as [pre Hpre].
    rewrite (Hpre _ _ Ht1), (Hpre _ _ Ht2).
    intros E. apply string_append_inv_head in E.
    exact (Hrows _ _ E).
  - intros E. apply (Hrows "" "").
    rewrite E. reflexivity.
Qed.

Lemma persisted_and_printed_documents_differ_witness :
  exists r,
    main Examples.clean_host = Normal r
    /\ writeSucceeded r = true
    /\ markdownContent r <> consoleMarkdown r.
Proof.
  eexists. split; [vm_compute; reflexivity |]. split; [reflexivity |].
  apply (proj1 (persisted_and_printed_documents_differ Examples.clean_host _
                  eq_refl)).
Defined.

(** ** The details of SEC-04 *)

Lemma pipes_app (a b : string) : pipes (a ++ b) = (pipes a + pipes b)%nat.
Proof.
  induction a as [| c rest IH]; [reflexivity |].
  cbn [append pipes]. rewrite IH. lia.
Qed.

Lemma digits_plain (u : Decimal.uint) :
  pipes (NilEmpty.string_of_uint u) = 0%nat
  /\ single_line (NilEmpty.string_of_uint u) = true.
Proof. induction u; simpl; try (split; reflexivity); exact IHu. Qed.

Lemma string_of_uint_plain (u : Decimal.uint) :
  pipes (NilZero.string_of_uint u) = 0%nat
  /\ single_line (NilZero.string_of_uint u) = true.
Proof.
  unfold NilZero.string_of_uint.
  destruct u; try (split; reflexivity); apply digits_plain.
Qed.

Lemma Number_toString_plain (n : Z) :
  pipes (Number_toString n) = 0%nat
  /\ single_line (Number_toString n) = true.
Proof.
  unfold Number_toString, NilZero.string_of_int.
  destruct (Z.to_int n) as [u | u]; [apply string_of_uint_plain |].
  destruct (string_of_uint_plain u) as [Hp Hs]. simpl. split; assumption.
Qed.

Lemma formatTrivySummary_plain (label : string) (s : Trivy.summary) :
  pipes (formatTrivySummary label s) = pipes label
  /\ single_line (formatTrivySummary label s) = single_line label.
Proof.
  unfold formatTrivySummary, TRIVY_SEVERITIES.
  cbn [map String.concat severity_text].
  split.
  - rewrite !pipes_app.
    rewrite !(proj1 (Number_toString_plain _)). simpl. lia.
  - rewrite !single_line_app.
    rewrite !(proj2 (Number_toString_plain _)). simpl.
    rewrite andb_true_r. reflexivity.
Qed.

(** X22. Whatever the artifacts and summaries, the details of SEC-04 hold no
    pipe and no line break: escaping leaves them unchanged and the SEC-04
    row of the table is one line. *)
Theorem sec04_details_are_plain (a b : artifact)
    (s1 s2 : option Trivy.summary) :
  let d := details (evaluateSec04 a b s1 s2) in
  pipes d = 0%nat
  /\ single_line d = true
  /\ escapeMarkdown d = d
  /\ single_line (tableRow (evaluateSec04 a b s1 s2)) = true.
Proof.
  intros d.
  assert (H : pipes d = 0%nat /\ single_line d = true).
  { subst d. unfold evaluateSec04.
    destruct (negb (found a) || negb (parsed a))%bool,
      (negb (found b) || negb (parsed b))%bool;
      cbn [app length Z.of_nat Z.gtb Z.compare details];
      try (split; reflexivity).
    destruct s1 as [fs |], s2 as [img |]; try (split; reflexivity).
    destruct (_ >? 0); cbn [details];
      rewrite !pipes_app, !single_line_app;
      rewrite !(proj1 (formatTrivySummary_plain _ _)),
        !(proj2 (formatTrivySummary_plain _ _));
      split; reflexivity. }
  destruct H as [Hp Hs].
  split; [exact Hp |]. split; [exact Hs |].
  split; [apply escapeMarkdown_no_pipes; exact Hp |].
  rewrite tableRow_single_line. exact Hs.
Qed.

(** ** Runs that complete *)

Lemma summarizeTrivyVulns_returns (doc : json) :
  (forall results, get_prop doc "Results" = Some (JArr results) ->
                   scalar_severities results) ->
  exists o, summarizeTrivyVulns doc = Normal o.
Proof.
  intros H. unfold summarizeTrivyVulns.
  destruct doc as [| | | | | members]; eauto.
  destruct (get_prop (JObj members) "Results") as [[| | | | results |] |] eqn:E;
    cbn [as_array]; eauto.
  destruct (countResults_scalar results (H results eq_refl) Trivy.zero)
    as [c Ec].
  rewrite Ec. cbn [bind]. eauto.
Qed.

Lemma summarizeDockleFindings_returns (doc : json) :
  scalar_levels doc -> exists o, summarizeDockleFindings doc = Normal o.
Proof.
  intros H. unfold summarizeDockleFindings.
  destruct doc as [| | | | items | members]; eauto.
  - destruct (bumpItems_scalar items H []) as [c Ec]. rewrite Ec.
    cbn [bind]. destruct (Z.of_nat (length c) =? 0); eauto.
  - destruct H as [Hl Hd].
    assert (E1 : exists c1,
               match as_array (get_prop (JObj members) "details") with
               | Some ds => bumpDetails ds []
               | None => Normal []
               end = Normal c1).
    { destruct (get_prop (JObj members) "details") as [[| | | | ds |] |] eqn:E;
        cbn [as_array]; eauto.
      apply bumpDetails_scalar. apply Hd. reflexivity. }
    destruct E1 as [c1 E1]. rewrite E1. cbn [bind].
    destruct (bumpLevelOf_scalar (JObj members) c1 Hl) as [c2 E2].
    unfold bumpLevelOf in E2. cbn [truthy] in E2. rewrite E2. cbn [bind].
    destruct (Z.of_nat (length c2) =? 0); eauto.
Qed.

(** X23. A run completes, printing its report and the two banner lines,
    whenever every [Severity] the two vulnerability artifacts hold under
    [Results] and every [level] the hardening artifact holds is a string, a
    number, a boolean or [null]; missing or unparseable artifacts never stop
    it. *)
Theorem main_completes_on_scalar_labels (h : host) :
  (forall f results,
     In f [FILES.trivyFs; FILES.trivyImage] ->
     get_prop (data (readJsonArtifact h f)) "Results" = Some (JArr results) ->
     scalar_severities results) ->
  scalar_levels (data (readJsonArtifact h FILES.dockle)) ->
  exists r,
    main h = Normal r
    /\ printed (script h)
       = [ LF ++ "=== Compliance Report ===" ++ LF;
           consoleMarkdown r;
           LF ++ "=== End of Compliance Report ===" ++ LF ].
Proof.
  intros Htrivy Hdockle.
  assert (Hev : exists controls, evaluateArtifacts h = Normal controls).
  { unfold evaluateArtifacts.
    assert (E1 : exists o,
               (if parsed (readJsonArtifact h FILES.trivyFs)
                then summarizeTrivyVulns (data (readJsonArtifact h FILES.trivyFs))
                else Normal None) = Normal o).
    { destruct (parsed (readJsonArtifact h FILES.trivyFs)); [| eauto].
      apply summarizeTrivyVulns_returns.
      intros results. apply Htrivy. left. reflexivity. }
    assert (E2 : exists o,
               (if parsed (readJsonArtifact h FILES.trivyImage)
                then summarizeTrivyVulns
                       (data (readJsonArtifact h FILES.trivyImage))
                else Normal None) = Normal o).
    { destruct (parsed (readJsonArtifact h FILES.trivyImage)); [| eauto].
      apply summarizeTrivyVulns_returns.
      intros results. apply Htrivy. right. left. reflexivity. }
    assert (E3 : exists o,
               (if parsed (readJsonArtifact h FILES.dockle)
                then summarizeDockleFindings
                       (data (readJsonArtifact h FILES.dockle))
                else Normal None) = Normal o).
    { destruct (parsed (readJsonArtifact h FILES.dockle)); [| eauto].
      apply summarizeDockleFindings_returns. exact Hdockle. }
    destruct E1 as [o1 E1]. destruct E2 as [o2 E2]. destruct E3 as [o3 E3].
    rewrite E1, E2, E3. cbn [bind]. eauto. }
  destruct Hev as [controls Hev].
  unfold script, main. rewrite Hev. cbn [bind].
  eexists. split; reflexivity.
Qed.

Lemma main_completes_on_scalar_labels_witness :
  exists r, main Examples.unreadable_host = Normal r.
Proof.
  destruct (main_completes_on_scalar_labels Examples.unreadable_host)
    as (r & Hr & _).
  - intros f results [<- | [<- | []]] E; discriminate E.
  - exact I.
  - exists r. exact Hr.
Defined.
